(* ===== verification/_CoqProject ===== *)
-Q . S2P
Prelude.v
Machine.v
PyStr.v
Soup.v
Extract.v
Browser.v
Script.v
LazyLoad.v
LazyMachine.v
Crawler.v
Pipeline.v
Ghost.v
CrawlMachine.v
