(* ===== verification/Prelude.v ===== *)
(** * A verification development of the synculario-crawler

    The program (two Python files under src/) drives a headless Chrome
    through the paginated job listing of synculario.odoo.com, captures
    the markup of every page, and turns it into a nine-column table.

    ** The program's parts and how they interact

    - [browser_handler.py], class [BrowserHandler]: a wrapper around one
      selenium WebDriver ([set_driver], [get_url], [find_element(s)],
      [get_element] with [wait_until_element_visible], scrolling, clicks,
      [quit_driver], and the lazy-loading loop [solve_lazy_loading]).
    - [synculario.py], [get_synculario_offers]: builds a handler, opens
      the listing, loops { sleep 1 s; take the last [.page-item]; append
      [page_source]; scroll to it and click it } until the click raises
      [ElementClickInterceptedException], closes the browser, then parses
      every page with BeautifulSoup and builds a pandas DataFrame.
    Data flows one way: browser -> list of page sources -> rows -> table.

    ** Layout (files in dependency order)

    - [Prelude.v] (this file): Python exceptions [exn], [result], a monad
      class with instances for [result] and for the state-and-exception
      monad [st S] ([S -> S * result A]) used for all stateful code,
      [try_except], Python list indexing [py_getitem] (negative indices,
      [IndexError]), [mapM], transition closures [star]/[infseq], tactics
      (among them [st_case], case analysis on monadic results) and the
      hint databases [crawl] and [crawl_rw].
    - [Machine.v], Module [Machine]: a loop as a state machine, for any
      loop: the step relation [mstep] built from the operations of each
      phase, its executable form, and the laws [loop_laws] under which
      the fuel-bounded code and the machine agree ([resume_sound],
      [stop_run], [infseq_of_running]).
    - [PyStr.v], Module [PyStr]: [str.strip], [str.replace] (CPython's
      left-to-right scan, empty-pattern case included), [str.isspace],
      and [str.join], [str.partition], [str.split] as the reference
      definitions [replace] is proved equal to.
    - [Soup.v], Module [Soup]: the parsed tree ([node]) and the bs4
      queries [find_all]/[findAll] (pre-order descendants filtered by a
      strainer; class matching on the multi-valued [class] attribute),
      [.text], [tag['href']]; the [desc] relation specifies [descendants].
    - [Extract.v], Module [Extract]: [synculario.py] lines 34-44 as
      [extract_row] (one block), [extract_page] (one page),
      [extract_data] (all pages), with Python's left-to-right evaluation
      order deciding which exception a malformed block raises.
    - [Browser.v], Module [Browser]: the selenium capabilities as the
      class [WebDriver] over an abstract browser world [W]; the
      [BrowserHandler] state as the record [handler] (driver, headless,
      resource_data, path_to_driver and a log [calls] of the driver
      calls and of the exceptions [print(e)] writes); the constructor
      [new_handler] with [_get_web_driver] ([get_web_driver], the outcome
      of [ChromeDriverManager().install()] as its argument); one
      definition per method; [WebDriverWait.until]; scripted pages for
      concrete runs.
    - [Script.v], Module [Script]: the source text of each
      [execute_script] snippet ([script_text], [paste]'s [str.format]
      included) and a reading of the assignment [paste] builds as
      JavaScript lexes it ([set_value_parts]: single-quoted and
      template literals).
    - [LazyLoad.v], Module [LazyLoad]: [solve_lazy_loading] (lines
      140-153) and its [while True] loop [lazy_loop].
    - [LazyMachine.v], Module [LazyMachine]: the same loop as the
      stabilisation machine of the design (Start, Scroll, Pause,
      Measure, Stable), an instance of [Machine].
    - [Crawler.v], Module [Crawler]: the pagination loop [crawl_loop] and
      the crawl prefix/suffix [crawl] (lines 16-33); the [no_close] frame
      invariant; [paged_site], a browser with [k] listing pages.
    - [Pipeline.v], Module [Pipeline]: [get_synculario_offers] from line
      17 on, [synculario_offers] from the construction of the handler
      (line 16) on, [pd.DataFrame] ([mk_dataframe], [column]), and the
      script entry [main] (lines 49-50) with the lines it writes.
    - [Ghost.v], Module [Ghost]: handlers equal up to their log
      ([same_state], an [Equivalence]) and [log_indep], whose closure
      under the monad's combinators gives [Proper] instances: the log of
      the model never influences the program.
    - [CrawlMachine.v], Module [CrawlMachine]: the pagination loop as the
      machine of the design (Loading, Locating, Capturing, Advancing,
      Done, Failed), an instance of [Machine]; a site whose last control
      cycles back ([cycle_site]).

    ** What the theorems show

    - Pagination (Crawler): on a [k]-page site the crawl returns exactly
      the [k] page sources in order with exactly [k] iterations and one
      close (C1); for every browser the browser is closed exactly once
      after a normal end and never when an exception escapes (C2, the
      code has no [try/finally]); a crawl returns between one and
      [fuel] pages, one per iteration (C13); a page without controls
      raises [IndexError] before capturing anything (C19).
    - Pagination machine (CrawlMachine): every outcome of [crawl_loop]
      is a run of the machine (C3) and every terminating run of the
      machine is what [crawl_loop] computes with enough fuel (C4); along
      every run no call closes the browser and snapshots are only
      appended (C8, rule induction); on a site that never intercepts the
      click the code runs for every fuel and the machine has an infinite
      run (C10), capturing every page again (C20).
    - Pipeline and script: a [k]-page site of well-formed blocks gives
      the frame with one row per block in page and document order (C5);
      run as a script it writes the install messages and the frame, or
      ends with the install's exception (C6); any successful extraction
      builds a frame whose [job_type] column is empty while [emp_type]
      holds each block's [li.company] text (C9); a listing that cannot
      be loaded ends the script with [IndexError] after the navigation
      error is printed (C26).
    - Parser (Extract): well-formed blocks round-trip to their fields
      (C7); missing heading -> [IndexError] (C23), missing [href] ->
      [KeyError] (C24); the contract cell is stripped before the prefix
      is removed, so whitespace after the prefix survives (C25).
    - Browser: [wait_until_element_visible] always returns [True] at once
      (C11); [get_element] is [find_element] with two exceptions renamed
      (C12); [get_url] absorbs every selenium exception (C21) and prints
      it, skipping its pause (C22); [get_element_click] pauses, looks up
      once and clicks, its click outside the [try] (C27).
    - Scripts (Script): the text [paste] builds assigns exactly the data
      when neither argument holds a delimiter of its literal (C28);
      [paste_backtick_runs_code] shows a backtick in the data running
      the rest of it as code.
    - Lazy loading (LazyLoad, LazyMachine): [solve_lazy_loading] stops
      after exactly the cycles needed for the height to repeat (C14) and
      never stops on a growing page (C15); it refines its machine in
      both directions (C16, C17); the stabiliser only scrolls, pauses and
      measures (C18).
    - Library models: their specifications are lemmas, not claims about
      the program: [strip_spec], [replace_split_join] (PyStr),
      [soup_find_all_spec] (Soup); [get_synculario_offers_log_blind]
      (Ghost) shows that the log added to the handler never influences
      the program, which justifies reading the claims' logs.

    ** Bounds and fuel

    The two [while True] loops are Fixpoints with a [fuel] argument and
    return [Ok None] when the fuel runs out (the loop is still running).
    Termination theorems give the exact fuel that suffices ([k] for a
    [k]-page site, [n + 1] cycles when the height repeats at cycle
    [n + 1]) and hold for any larger fuel; divergence theorems show the
    fuel is exhausted for every fuel.  The state machine has no fuel:
    its runs may be infinite ([infseq]), and the completeness theorem
    turns a finite run into the fuel bound it needs (its number of
    Loading steps).  [WebDriverWait.until] polls [timeout / 500 ms]
    times after the first check, selenium's default poll, so it sleeps
    [timeout / 500 + 1] times at most ([until_wait_bound]); [str.split]
    runs on fuel
    [length s + 1], enough because each round consumes the separator.

    ** Not modelled

    ChromeDriverManager's download itself (the outcome of [install()] is
    an argument of [new_handler]); the HTML tokenizer of
    [BeautifulSoup(html, "html.parser")] (a section variable [parse] of
    [Pipeline]); the text pandas prints for a frame ([main] writes the
    frame itself) and [pd.set_option], which only changes that text;
    the browser itself beyond the capability interface
    [WebDriver] and the concrete scripted worlds used for the witnesses
    (in it [webdriver.Chrome(...)], [delete_all_cookies], navigation,
    clicks, scripts and [select_by_value] may raise, while
    [page_source], [find_elements], [current_url], [text] and [close]
    are total; [Select] reads only the tag name, not [multiple]);
    JavaScript beyond the lexing of the literals [paste] builds (escape
    sequences and [${...}] substitutions are read as [None]); Unicode
    code points above 255 in strings; [str.split] without a separator
    or with the empty one, which the code never calls ([split] is only
    the reference definition [replace] is compared to).  Selenium and
    bs4 are modelled only as far as the code calls them (the
    [WebDriver] class, the [find_all] queries): they are libraries
    without source in this repository.  Every function and method of
    [src/] is a definition of the development; the lines left out are
    the imports, blank lines and docstrings. *)

From Stdlib Require Import String Ascii List ZArith Lia Bool.
From Stdlib Require Import Classes.EquivDec.
Import ListNotations.

Declare Scope crawl_scope.
Delimit Scope crawl_scope with crawl.
Open Scope crawl_scope.

Create HintDb crawl discriminated.
Create Rewrite HintDb crawl_rw.

(** ** Python exceptions raised or caught by the two source files *)

(** [WebDriverException], [NoSuchElementException], [TimeoutException]
    and [ElementClickInterceptedException] are the selenium exception
    classes imported by the sources; the last three are subclasses of
    the first (see [is_webdriver_exception]).  [IndexError] and
    [KeyError] come from list indexing and [Tag.__getitem__],
    [AttributeError] from calling a method on [self.driver = None], and
    [ValueError] from [pd.DataFrame] when a row has the wrong width. *)
Inductive exn : Type :=
| WebDriverException (msg : string)
| NoSuchElementException (msg : string)
| TimeoutException (msg : string)
| ElementClickInterceptedException
| IndexError
| KeyError (key : string)
| AttributeError (name : string)
| ValueError (msg : string)
| UnexpectedTagNameException (msg : string).

Definition exn_eq_dec (e1 e2 : exn) : {e1 = e2} + {e1 <> e2}.
Proof. decide equality; apply string_dec. Defined.

#[export] Instance exn_EqDec : EqDec exn eq := exn_eq_dec.

(** [except WebDriverException] catches the selenium subclasses too. *)
Definition is_webdriver_exception (e : exn) : bool :=
  match e with
  | WebDriverException _ | NoSuchElementException _ | TimeoutException _
  | ElementClickInterceptedException | UnexpectedTagNameException _ => true
  | _ => false
  end.

(** ** Results and a small monad class *)

Inductive result (A : Type) : Type :=
| Ok (a : A)
| Err (e : exn).
Arguments Ok {A} a.
Arguments Err {A} e.

Class Monad (M : Type -> Type) := {
  ret : forall {A}, A -> M A;
  bind : forall {A B}, M A -> (A -> M B) -> M B
}.

Notation "x <- c ;; k" := (bind c (fun x => k))
  (at level 61, c at next level, right associativity) : crawl_scope.
Notation "c ;;; k" := (bind c (fun _ => k))
  (at level 61, right associativity) : crawl_scope.

Definition result_bind {A B} (r : result A) (f : A -> result B) : result B :=
  match r with Ok a => f a | Err e => Err e end.

#[export] Instance Monad_result : Monad result := {
  ret := fun _ a => Ok a;
  bind := fun _ _ => result_bind
}.

(** State threaded through every call, with Python's exceptions: a raised
    exception keeps the state reached at the point of the raise. *)
Definition st (S A : Type) : Type := S -> S * result A.

Definition st_bind {S A B} (c : st S A) (f : A -> st S B) : st S B :=
  fun s => match c s with
           | (s', Ok a) => f a s'
           | (s', Err e) => (s', Err e)
           end.

#[export] Instance Monad_st {S} : Monad (st S) := {
  ret := fun _ a s => (s, Ok a);
  bind := fun _ _ => st_bind
}.

Definition raise {S A} (e : exn) : st S A := fun s => (s, Err e).
Definition get_st {S} : st S S := fun s => (s, Ok s).
Definition put_st {S} (s : S) : st S unit := fun _ => (s, Ok tt).
Definition lift {S A} (r : result A) : st S A := fun s => (s, r).

(** [try: c except E: h]: the handler answers [None] for an exception it
    does not catch, which is then re-raised unchanged. *)
Definition try_except {S A} (c : st S A) (h : exn -> option (st S A)) : st S A :=
  fun s => match c s with
           | (s', Err e) => match h e with Some k => k s' | None => (s', Err e) end
           | r => r
           end.

(** ** Python list indexing [l[i]] with negative indices *)

Definition py_getitem {A} (l : list A) (i : Z) : result A :=
  let n := Z.of_nat (length l) in
  let j := if (i <? 0)%Z then (n + i)%Z else i in
  if ((0 <=? j) && (j <? n))%Z then
    match nth_error l (Z.to_nat j) with Some x => Ok x | None => Err IndexError end
  else Err IndexError.

(** [map] over a list in the result monad: the first error wins. *)
Fixpoint mapM {A B} (f : A -> result B) (l : list A) : result (list B) :=
  match l with
  | [] => Ok []
  | x :: l' => match f x with
               | Ok y => match mapM f l' with Ok ys => Ok (y :: ys) | Err e => Err e end
               | Err e => Err e
               end
  end.

(** ** Transition sequences (reflexive-transitive closure, divergence) *)

Section Sequences.
Context {A : Type} (R : A -> A -> Prop).

Inductive star : A -> A -> Prop :=
| star_refl a : star a a
| star_step a b c : R a b -> star b c -> star a c.

(** An infinite run exists from [a]: some set containing [a] is closed
    under taking one more step. *)
Definition infseq (a : A) : Prop :=
  exists X : A -> Prop, X a /\ (forall b, X b -> exists c, R b c /\ X c).
End Sequences.

(** ** Tactics *)

Ltac inv H := inversion H; subst; clear H.

(** Case on every state-monad result in hypotheses and goal. *)
Ltac st_case :=
  repeat match goal with
  | H : context [match ?x with (_, _) => _ end] |- _ =>
      let E := fresh "E" in destruct x as [? [?|?]] eqn:E
  | |- context [match ?x with (_, _) => _ end] =>
      let E := fresh "E" in destruct x as [? [?|?]] eqn:E
  | H : context [match ?r with Ok _ => _ | Err _ => _ end] |- _ =>
      let E := fresh "E" in destruct r eqn:E
  | |- context [match ?r with Ok _ => _ | Err _ => _ end] =>
      let E := fresh "E" in destruct r eqn:E
  | H : context [if ?b then _ else _] |- _ => destruct b
  | |- context [if ?b then _ else _] => destruct b
  | H : (_, _) = (_, _) |- _ => injection H as; subst
  | H : Err _ = Ok _ |- _ => discriminate H
  | H : Ok _ = Err _ |- _ => discriminate H
  | H : Ok _ = Ok _ |- _ => injection H as; subst
  | H : Err _ = Err _ |- _ => injection H as; subst
  end.

(** The same on hypotheses only, then rewriting the goal with the cases. *)
Ltac st_case_hyps :=
  repeat match goal with
  | H : context [match ?x with (_, _) => _ end] |- _ =>
      let E := fresh "E" in destruct x as [? [?|?]] eqn:E
  | H : context [match ?r with Ok _ => _ | Err _ => _ end] |- _ =>
      let E := fresh "E" in destruct r eqn:E
  | H : context [if ?b then _ else _] |- _ => destruct b
  | H : (_, _) = (_, _) |- _ => injection H as; subst
  | H : Err _ = Ok _ |- _ => discriminate H
  | H : Ok _ = Err _ |- _ => discriminate H
  | H : Ok _ = Ok _ |- _ => injection H as; subst
  | H : Err _ = Err _ |- _ => injection H as; subst
  end.

(** Case on every [match] on a result or option in a hypothesis or the goal. *)
Ltac destr_results :=
  repeat match goal with
  | H : context [match ?x with Ok _ => _ | Err _ => _ end] |- _ =>
      let E := fresh "E" in destruct x eqn:E
  | |- context [match ?x with Ok _ => _ | Err _ => _ end] =>
      let E := fresh "E" in destruct x eqn:E
  | H : Ok _ = Ok _ |- _ => injection H as H
  | H : Ok _ = Err _ |- _ => discriminate H
  | H : Err _ = Ok _ |- _ => discriminate H
  end.

(** ** Generic lemmas *)

Lemma py_getitem_nil {A} (i : Z) : @py_getitem A [] i = Err IndexError.
Proof.
  unfold py_getitem; simpl. destruct (_ && _)%Z; [|reflexivity].
  rewrite nth_error_nil. reflexivity.
Qed.

Lemma py_getitem_zero {A} (x : A) l : py_getitem (x :: l) 0 = Ok x.
Proof. reflexivity. Qed.

Lemma py_getitem_zero_hd {A} (l : list A) :
  py_getitem l 0 = match hd_error l with Some x => Ok x | None => Err IndexError end.
Proof. destruct l; [apply py_getitem_nil | reflexivity]. Qed.

Lemma nth_error_last {A} (l : list A) d :
  l <> [] -> nth_error l (length l - 1) = Some (last l d).
Proof.
  induction l as [|x [|y l] IH]; intros H; [congruence|reflexivity|].
  simpl length in *. simpl in IH |- *.
  replace (length l - 0) with (length l) by lia.
  rewrite <- IH by discriminate. simpl. f_equal; lia.
Qed.

(** [l[len(l)-1]] is the last element of a non-empty list and an
    [IndexError] on the empty list. *)
Lemma py_getitem_last {A} (l : list A) d :
  py_getitem l (Z.of_nat (length l) - 1) =
  match l with [] => Err IndexError | _ => Ok (last l d) end.
Proof.
  destruct l as [|x l'] eqn:El; [apply py_getitem_nil|].
  rewrite <- El. unfold py_getitem.
  assert (Hn : length l > 0) by (subst; simpl; lia).
  replace (Z.of_nat (length l) - 1 <? 0)%Z with false by lia.
  replace ((0 <=? Z.of_nat (length l) - 1) && (Z.of_nat (length l) - 1 <? Z.of_nat (length l)))%Z
    with true by lia.
  replace (Z.to_nat (Z.of_nat (length l) - 1)) with (length l - 1) by lia.
  rewrite nth_error_last with (d := d) by (subst; discriminate). reflexivity.
Qed.

Lemma mapM_ok_iff {A B} (f : A -> result B) l ys :
  mapM f l = Ok ys <-> Forall2 (fun x y => f x = Ok y) l ys.
Proof.
  revert ys; induction l as [|x l IH]; intros ys; simpl.
  - split; [intros H; injection H as <-; constructor | intros H; inv H; reflexivity].
  - split.
    + intros H. destruct (f x) eqn:Fx; [|discriminate].
      destruct (mapM f l) eqn:Ml; [|discriminate]. injection H as <-.
      constructor; [exact Fx | apply IH; reflexivity].
    + intros H. inversion H as [|x' y ys' l' Hxy Hrest]; subst.
      rewrite Hxy. apply IH in Hrest. rewrite Hrest. reflexivity.
Qed.

Lemma mapM_length {A B} (f : A -> result B) l ys :
  mapM f l = Ok ys -> length ys = length l.
Proof. intros H. apply mapM_ok_iff in H. symmetry. eapply Forall2_length; eassumption. Qed.

Lemma Forall2_concat {A B} (R : A -> B -> Prop) ls ls' :
  Forall2 (Forall2 R) ls ls' -> Forall2 R (concat ls) (concat ls').
Proof. induction 1; simpl; [constructor | apply Forall2_app; assumption]. Qed.

Lemma Forall2_map_eq {A B C} (f : A -> C) (g : B -> C) xs ys :
  Forall2 (fun x y => f x = g y) xs ys -> map f xs = map g ys.
Proof. induction 1; simpl; congruence. Qed.

Lemma mapM_app {A B} (f : A -> result B) l1 l2 :
  mapM f (l1 ++ l2) = (ys1 <- mapM f l1 ;; ys2 <- mapM f l2 ;; ret (ys1 ++ ys2)).
Proof.
  induction l1 as [|x l1 IH]; simpl.
  - destruct (mapM f l2); reflexivity.
  - rewrite IH. destruct (f x); simpl; [|reflexivity].
    destruct (mapM f l1); simpl; [|reflexivity]. destruct (mapM f l2); reflexivity.
Qed.

(** The error of [mapM] is the error of the first element that fails. *)
Lemma mapM_err {A B} (f : A -> result B) l e :
  mapM f l = Err e <->
  exists pre x post ys, l = pre ++ x :: post /\ mapM f pre = Ok ys /\ f x = Err e.
Proof.
  split.
  - induction l as [|x l IH]; simpl; [discriminate|].
    intros H. destruct (f x) eqn:Fx.
    + destruct (mapM f l) eqn:Ml; [discriminate|]. injection H as ->.
      destruct (IH eq_refl) as (pre & y & post & ys & -> & Hp & Hy).
      exists (x :: pre), y, post, (a :: ys). simpl. rewrite Fx, Hp. auto.
    + injection H as ->. exists [], x, l, []. auto.
  - intros (pre & x & post & ys & -> & Hp & Hx). rewrite mapM_app, Hp. simpl.
    rewrite Hx. reflexivity.
Qed.

Lemma star_trans {A} (R : A -> A -> Prop) a b c :
  star R a b -> star R b c -> star R a c.
Proof. induction 1; eauto using star. Qed.

Lemma star_one {A} (R : A -> A -> Prop) a b : R a b -> star R a b.
Proof. eauto using star. Qed.

(** A state that reaches itself in one or more steps diverges. *)
Lemma infseq_cycle {A} (R : A -> A -> Prop) a b :
  R a b -> star R b a -> infseq R a.
Proof.
  intros Hab Hba. exists (fun x => star R x a); split; [constructor|].
  intros x Hx. inv Hx; eauto using star_trans, star_one.
Qed.

#[export] Hint Resolve star_refl star_one star_trans : crawl.
#[export] Hint Rewrite @py_getitem_nil @py_getitem_zero : crawl_rw.
