(* ===== verification/Machine.v ===== *)
(** * Loops of the program as state machines

    The two [while True] loops of the sources are modelled twice: as
    Fixpoints on a fuel argument (the code) and as a step relation over
    the points of the loop body (the machine of the design).  This file
    proves, once for any such loop, what relates the two.  A loop is
    given by its phases [P], the operations [act p] each phase runs in
    the state-and-exception monad (none for a phase where the loop has
    stopped), and the phase [fail e] an escaping exception leads to.
    The code left to run from a phase with fuel [f] is [resume f p]; the
    laws of the Section say that a step of the machine is a step of the
    code ([resume_ok], [resume_err]), that only the loop head uses fuel
    ([cost]), that the phases within one iteration are ordered ([rank])
    and that a stopped phase no longer depends on the fuel.  From them:
    every run of the code is a run of the machine ([resume_sound]),
    every finished run of the machine is a run of the code with enough
    fuel ([stop_run]), and a code that runs for every fuel is a machine
    with an infinite run ([infseq_of_running]). *)

From Stdlib Require Import List Arith Lia.
From S2P Require Import Prelude.
Import ListNotations.

Module Machine.

Section Machine.
Context {St P R : Type}.
Variable act : P -> option (st St P).
Variable fail : exn -> P.

Definition mconfig : Type := (P * St)%type.

Inductive mstep : mconfig -> mconfig -> Prop :=
| mstep_ok p h m p' h' : act p = Some m -> m h = (h', Ok p') -> mstep (p, h) (p', h')
| mstep_err p h m e h' : act p = Some m -> m h = (h', Err e) -> mstep (p, h) (fail e, h').

Definition mstep_fn (c : mconfig) : option mconfig :=
  let (p, h) := c in
  match act p with
  | None => None
  | Some m => let (h', r) := m h in
              Some (match r with Ok p' => (p', h') | Err e => (fail e, h') end)
  end.

(** [n] steps of the machine, stopping where no step is possible. *)
Fixpoint mrun_fn (n : nat) (c : mconfig) : mconfig :=
  match n with
  | O => c
  | S n' => match mstep_fn c with Some c' => mrun_fn n' c' | None => c end
  end.

Lemma mstep_fn_spec c c' : mstep c c' <-> mstep_fn c = Some c'.
Proof.
  destruct c as [p h]. split.
  - intros Hs. inversion Hs as [p0 h0 m p1 h1 Ha Hm | p0 h0 m e h1 Ha Hm]; subst; simpl;
      rewrite Ha, Hm; reflexivity.
  - simpl. destruct (act p) as [m|] eqn:Ha; [|discriminate].
    destruct (m h) as [h' [p'|e]] eqn:Hm; intros Heq; injection Heq as <-;
      [eapply mstep_ok | eapply mstep_err]; eassumption.
Qed.

Lemma mstep_det c c1 c2 : mstep c c1 -> mstep c c2 -> c1 = c2.
Proof. rewrite !mstep_fn_spec. congruence. Qed.

Lemma mrun_fn_star n c : star mstep c (mrun_fn n c).
Proof.
  revert c. induction n as [|n IH]; intros c; simpl; [constructor|].
  destruct (mstep_fn c) as [c'|] eqn:Hc; [|constructor].
  apply mstep_fn_spec in Hc. eapply star_step; eauto.
Qed.

Lemma progress p h : act p <> None -> exists c', mstep (p, h) c'.
Proof.
  destruct (act p) as [m|] eqn:Ha; [intros _|congruence].
  destruct (m h) as [h' [p'|e]] eqn:Hm; eexists; [eapply mstep_ok | eapply mstep_err]; eassumption.
Qed.

(** The code left to run from each phase, the fuel each phase uses and
    the order of the phases within one iteration. *)
Variable resume : nat -> P -> st St R.
Variables cost rank : P -> nat.
Variable width : nat.

(** The code ends where the machine stops, or at a loop head once the
    fuel is used up. *)
Definition stopped (q : P) : Prop := act q = None \/ cost q = 1.

(** The laws relating the machine to the code. *)
Record loop_laws : Prop := {
  resume_ok : forall p m h h' p' f,
    act p = Some m -> m h = (h', Ok p') -> resume (cost p + f) p h = resume f p' h';
  resume_err : forall p m h h' e f,
    act p = Some m -> m h = (h', Err e) -> resume (cost p + f) p h = (h', Err e);
  resume_fail : forall e f h, resume f (fail e) h = (h, Err e);
  act_fail : forall e, act (fail e) = None;
  resume_stop : forall p f h, act p = None -> resume f p h = resume 0 p h;
  resume_still : forall q h, stopped q -> fst (resume 0 q h) = h;
  cost_le : forall p, cost p <= 1;
  rank_lt : forall p, rank p < width;
  rank_step : forall p m h h' p',
    act p = Some m -> m h = (h', Ok p') -> cost p = 0 -> rank p' < rank p }.

Hypothesis L : loop_laws.

Lemma step_resume p p' h h' f : mstep (p, h) (p', h') -> resume (cost p + f) p h = resume f p' h'.
Proof.
  intros Hs. inversion Hs as [p0 h0 m p1 h1 Ha Hm | p0 h0 m e h1 Ha Hm]; subst.
  - eapply (resume_ok L); eassumption.
  - rewrite (resume_fail L). eapply (resume_err L); eassumption.
Qed.

Lemma star_resume c c' :
  star mstep c c' -> exists n, forall f, resume (n + f) (fst c) (snd c) = resume f (fst c') (snd c').
Proof.
  induction 1 as [c|[p h] [p1 h1] c' Hs _ [n IH]]; [exists 0; reflexivity|].
  exists (cost p + n). intros f. rewrite <- Nat.add_assoc, (step_resume p p1 h h1); auto.
Qed.

Lemma resume_sound_measure n : forall f p h,
  width * f + rank p <= n ->
  exists q, star mstep (p, h) (q, fst (resume f p h)) /\
            resume 0 q (fst (resume f p h)) = resume f p h /\ stopped q.
Proof.
  induction n as [n IH] using lt_wf_ind; intros f p h Hn.
  destruct (act p) as [m|] eqn:Ha.
  2:{ rewrite ((resume_stop L) p f h Ha), (resume_still L) by (left; exact Ha).
      exists p. split; [constructor | split; [reflexivity | left; exact Ha]]. }
  assert (Hf : (cost p = 1 /\ f = 0) \/ exists f', f = cost p + f').
  { pose proof ((cost_le L) p). destruct (cost p) as [|[|]] eqn:Ec; [| |lia].
    - right. exists f. reflexivity.
    - destruct f as [|f']; [left; auto | right; exists f'; reflexivity]. }
  destruct Hf as [[Hc ->] | [f' ->]].
  - rewrite (resume_still L) by (right; exact Hc).
    exists p. split; [constructor | split; [reflexivity | right; exact Hc]].
  - destruct (m h) as [h' [p'|e]] eqn:Hm.
    + rewrite ((resume_ok L) p m h h' p' f' Ha Hm).
      assert (Hlt : width * f' + rank p' < n).
      { pose proof ((cost_le L) p). pose proof ((rank_lt L) p'). pose proof ((rank_lt L) p).
        destruct (cost p) eqn:Ec.
        - pose proof ((rank_step L) p m h h' p' Ha Hm Ec). simpl in Hn. lia.
        - assert (n0 = 0) by lia. subst. simpl in Hn. nia. }
      destruct (IH _ Hlt f' p' h' (le_n _)) as (q & Hs & Hq & Hst).
      exists q. split; [|split; assumption]. eapply star_step; [eapply mstep_ok; eassumption | exact Hs].
    + rewrite ((resume_err L) p m h h' e f' Ha Hm). exists (fail e). cbn [fst].
      split; [apply star_one; eapply mstep_err; eassumption|].
      split; [apply (resume_fail L) | left; apply (act_fail L)].
Qed.

(** Soundness: the outcome of the code is the code at a stopped phase
    the machine reaches. *)
Lemma resume_sound f p h :
  exists q, star mstep (p, h) (q, fst (resume f p h)) /\
            resume 0 q (fst (resume f p h)) = resume f p h /\ stopped q.
Proof. exact (resume_sound_measure _ f p h (le_n _)). Qed.

(** Completeness: a run of the machine to a phase without steps is what
    the code computes for every fuel from some bound on. *)
Lemma stop_run p h q h' :
  star mstep (p, h) (q, h') -> act q = None ->
  exists n, forall f, n <= f -> resume f p h = resume 0 q h'.
Proof.
  intros Hs Hq. destruct (star_resume _ _ Hs) as [n Hn]. exists n. intros f Hf.
  specialize (Hn (f - n)). simpl in Hn. replace (n + (f - n)) with f in Hn by lia.
  rewrite Hn. apply (resume_stop L), Hq.
Qed.

(** Code that is still running for every fuel is a machine with an
    infinite run, when no stopped phase counts as running. *)
Lemma infseq_of_running (running : result R -> Prop) p h :
  (forall q h', act q = None -> ~ running (snd (resume 0 q h'))) ->
  (forall f, running (snd (resume f p h))) -> infseq mstep (p, h).
Proof.
  intros Hstop Hrun. exists (star mstep (p, h)). split; [constructor|].
  intros [q h'] Hq. destruct (act q) eqn:Ha.
  - destruct (progress q h' ltac:(congruence)) as [c' Hs]. exists c'.
    split; [exact Hs | eapply star_trans; [exact Hq | apply star_one, Hs]].
  - exfalso. destruct (stop_run _ _ _ _ Hq Ha) as [n Hn].
    apply (Hstop q h' Ha). rewrite <- (Hn n (le_n n)). apply Hrun.
Qed.

End Machine.

(** A law [resume_ok] or [resume_err] of an instance, once the phase's
    operations are known: case on the results of the operations in the
    mstep hypothesis, unfold the code with [unf] and rewrite. *)
Ltac resume_by unf :=
  unf; st_case_hyps; unf;
  repeat match goal with E : ?x = _ |- context [?x] => rewrite E end; reflexivity.

End Machine.
