(* ===== verification/PyStr.v ===== *)
(** * Python string methods used by [synculario.py]

    [str.strip()] (Python's whitespace set restricted to the code points
    0..255 that [ascii] can hold), [str.replace(old, new)] with CPython's
    left-to-right non-overlapping scan (and its special case for an empty
    [old]), and the f-string concatenation [f"{base_url}{href}"].
    These are library functions, modelled from their documented
    behaviour; the theorems here are the facts the row extraction of
    [Extract.v] relies on. *)

From Stdlib Require Import String Ascii List Bool Arith Lia.
From S2P Require Import Prelude.
Import ListNotations.
Local Open Scope string_scope.

Module PyStr.

(** [str.isspace] on one character: \t \n \v \f \r, the separators
    \x1c..\x1f, the space, and the Latin-1 \x85 and \xa0. *)
Definition is_space (c : ascii) : bool :=
  let n := nat_of_ascii c in
  (((9 <=? n) && (n <=? 13)) || ((28 <=? n) && (n <=? 32)) || (n =? 133) || (n =? 160))%nat.

Definition nl : string := String (ascii_of_nat 10) EmptyString.

Fixpoint lstrip (s : string) : string :=
  match s with
  | EmptyString => EmptyString
  | String c s' => if is_space c then lstrip s' else s
  end.

Fixpoint rstrip (s : string) : string :=
  match s with
  | EmptyString => EmptyString
  | String c s' =>
      match rstrip s' with
      | EmptyString => if is_space c then EmptyString else String c EmptyString
      | r => String c r
      end
  end.

(** [s.strip()] *)
Definition strip (s : string) : string := rstrip (lstrip s).

(** [old] removed left to right: [skip] counts the characters of the last
    match still to be dropped. *)
Fixpoint replace_from (old new : string) (skip : nat) (s : string) : string :=
  match s with
  | EmptyString => EmptyString
  | String c s' =>
      match skip with
      | S k => replace_from old new k s'
      | O => if prefix old s
             then new ++ replace_from old new (String.length old - 1) s'
             else String c (replace_from old new 0 s')
      end
  end.

(** [s.replace("", new)] inserts [new] before every character and at the end. *)
Fixpoint replace_empty (new s : string) : string :=
  match s with
  | EmptyString => new
  | String c s' => new ++ String c (replace_empty new s')
  end.

(** [s.replace(old, new)] *)
Definition replace (old new s : string) : string :=
  match old with
  | EmptyString => replace_empty new s
  | _ => replace_from old new 0 s
  end.

(** Whether [old] occurs in [s] ([old in s]). *)
Fixpoint occurs (old s : string) : bool :=
  prefix old s || match s with EmptyString => false | String _ s' => occurs old s' end.

Fixpoint all_space (s : string) : bool :=
  match s with
  | EmptyString => true
  | String c s' => is_space c && all_space s'
  end.

Fixpoint last_char (s : string) : option ascii :=
  match s with
  | EmptyString => None
  | String c EmptyString => Some c
  | String _ s' => last_char s'
  end.

(** [sep.join(words)] *)
Fixpoint join (sep : string) (l : list string) : string :=
  match l with
  | [] => ""
  | [w] => w
  | w :: l' => w ++ sep ++ join sep l'
  end.

(** [s[n:]] *)
Fixpoint drop (n : nat) (s : string) : string :=
  match n, s with
  | O, _ => s
  | S _, EmptyString => EmptyString
  | S n', String _ s' => drop n' s'
  end.

(** [s.partition(sep)] for a non-empty [sep]: the text before the first
    occurrence and the text after it; [None] where Python returns
    [(s, "", "")]. *)
Fixpoint partition (sep s : string) : option (string * string) :=
  if prefix sep s then Some (EmptyString, drop (String.length sep) s)
  else match s with
       | EmptyString => None
       | String c s' =>
           match partition sep s' with
           | Some (p, q) => Some (String c p, q)
           | None => None
           end
       end.

(** [s.split(sep)] for a non-empty [sep], by repeated [partition]; each
    round consumes at least one character, so [length s + 1] rounds
    suffice. *)
Fixpoint split_fuel (fuel : nat) (sep s : string) : list string :=
  match fuel with
  | O => [s]
  | S f => match partition sep s with
           | None => [s]
           | Some (p, q) => p :: split_fuel f sep q
           end
  end.

Definition split (sep s : string) : list string := split_fuel (S (String.length s)) sep s.

(** No whitespace at either end: the shape of every [strip] result. *)
Definition trimmed (s : string) : bool :=
  match s with
  | EmptyString => true
  | String c _ => negb (is_space c) &&
                  match last_char s with Some d => negb (is_space d) | None => true end
  end.

(** ** Lemmas *)

Lemma str_app_nil_r s : s ++ "" = s.
Proof. induction s as [|c s IH]; simpl; [reflexivity | rewrite IH; reflexivity]. Qed.

Lemma str_app_assoc (a b c : string) : a ++ (b ++ c) = (a ++ b) ++ c.
Proof. induction a as [|x a IH]; simpl; [reflexivity | rewrite IH; reflexivity]. Qed.

Lemma prefix_app (p s : string) : prefix p (p ++ s) = true.
Proof. induction p as [|c p IH]; simpl; [destruct s; reflexivity|].
  destruct (ascii_dec c c); [exact IH | congruence]. Qed.

Lemma replace_from_skip old new (p s : string) :
  replace_from old new (String.length p) (p ++ s) = replace_from old new 0 s.
Proof. induction p as [|c p IH]; [reflexivity | exact IH]. Qed.

(** Replacing in [old ++ s] emits [new] and continues after the match. *)
Lemma replace_app_old old new s :
  old <> EmptyString -> replace old new (old ++ s) = new ++ replace old new s.
Proof.
  intros Hne. destruct old as [|c o]; [congruence|]. unfold replace. simpl.
  destruct (ascii_dec c c); [|congruence]. rewrite prefix_app.
  replace (String.length o - 0) with (String.length o) by lia. rewrite replace_from_skip. reflexivity.
Qed.

Lemma replace_from_absent old new s :
  occurs old s = false -> replace_from old new 0 s = s.
Proof.
  induction s as [|c s IH]; simpl; [reflexivity|].
  intros H. apply orb_false_iff in H as [Hp Ho]. rewrite Hp, IH by exact Ho. reflexivity.
Qed.

(** A non-empty [old] that does not occur leaves the string unchanged. *)
Lemma replace_absent old new s :
  old <> EmptyString -> occurs old s = false -> replace old new s = s.
Proof. intros Hne H. destruct old; [congruence|]. apply replace_from_absent, H. Qed.

Lemma lstrip_app_space p s : all_space p = true -> lstrip (p ++ s) = lstrip s.
Proof.
  induction p as [|c p IH]; simpl; [reflexivity|].
  intros H. apply andb_true_iff in H as [Hc Hp]. rewrite Hc. apply IH, Hp.
Qed.

Lemma lstrip_nonspace c s : is_space c = false -> lstrip (String c s) = String c s.
Proof. simpl. intros ->. reflexivity. Qed.

Lemma rstrip_app_space s : all_space s = true -> rstrip s = EmptyString.
Proof.
  induction s as [|c s IH]; simpl; [reflexivity|].
  intros H. apply andb_true_iff in H as [Hc Hs]. rewrite IH by exact Hs. rewrite Hc. reflexivity.
Qed.

Lemma rstrip_cons c s : rstrip s <> EmptyString -> rstrip (String c s) = String c (rstrip s).
Proof. simpl. destruct (rstrip s); [congruence | reflexivity]. Qed.

Lemma last_char_app_cons p c s :
  last_char (p ++ String c s) = last_char (String c s).
Proof.
  induction p as [|d p IH]; [reflexivity|]. simpl.
  rewrite IH. destruct p; simpl; reflexivity.
Qed.

Lemma last_char_cons c s : exists d, last_char (String c s) = Some d.
Proof.
  revert c. induction s as [|c' s IHs]; intros c.
  - exists c. reflexivity.
  - destruct (IHs c') as [d Hd]. exists d. exact Hd.
Qed.

(** A string whose last character is not a space loses nothing at its end,
    whatever trailing whitespace is appended. *)
Lemma rstrip_keep s q :
  (match last_char s with Some d => is_space d = false | None => False end) ->
  all_space q = true -> rstrip (s ++ q) = s.
Proof.
  induction s as [|c s IH]; simpl; [tauto|].
  intros Hl Hq. destruct s as [|c' s'].
  - simpl. rewrite rstrip_app_space by exact Hq. rewrite Hl. reflexivity.
  - rewrite IH by assumption. reflexivity.
Qed.

(** [strip] removes exactly the surrounding whitespace: on
    [pre ++ core ++ suf] with whitespace [pre] and [suf] and a [core] that
    neither starts nor ends with whitespace, it returns [core]. *)
Lemma strip_surrounded pre core suf :
  all_space pre = true -> all_space suf = true ->
  core <> EmptyString -> trimmed core = true ->
  strip (pre ++ core ++ suf) = core.
Proof.
  intros Hp Hs Hne Ht. unfold strip. rewrite lstrip_app_space by exact Hp.
  destruct core as [|c s]; [congruence|]. simpl in Ht.
  apply andb_true_iff in Ht as [Hc Hl]. apply negb_true_iff in Hc.
  change (String c s ++ suf) with (String c (s ++ suf)).
  rewrite lstrip_nonspace by exact Hc.
  change (String c (s ++ suf)) with (String c s ++ suf).
  apply rstrip_keep; [|exact Hs].
  destruct (last_char_cons c s) as [d Hd]. rewrite Hd. simpl in Hd. rewrite Hd in Hl.
  apply negb_true_iff, Hl.
Qed.

Lemma str_length_app (a b : string) : String.length (a ++ b) = String.length a + String.length b.
Proof. induction a as [|c a IH]; simpl; [reflexivity | rewrite IH; reflexivity]. Qed.

Lemma prefix_split sep s : prefix sep s = true -> s = sep ++ drop (String.length sep) s.
Proof.
  revert s. induction sep as [|c sep IH]; intros s Hp; [reflexivity|].
  destruct s as [|d s]; [discriminate|]. simpl in Hp.
  destruct (ascii_dec c d) as [<-|]; [|discriminate]. simpl. f_equal. apply IH, Hp.
Qed.

(** [partition] splits at the first occurrence, and [replace] replaces
    that occurrence and continues after it. *)
Lemma partition_spec sep new s :
  sep <> EmptyString ->
  match partition sep s with
  | None => replace_from sep new 0 s = s
  | Some (p, q) => s = p ++ sep ++ q /\ replace_from sep new 0 s = p ++ new ++ replace_from sep new 0 q
  end.
Proof.
  intros Hne. induction s as [|c s IH].
  - destruct sep; [congruence | reflexivity].
  - cbn [partition replace_from]. destruct (prefix sep (String c s)) eqn:Hp.
    + pose proof (prefix_split _ _ Hp) as E. remember (drop (String.length sep) (String c s)) as q.
      split; [exact E|]. destruct sep as [|c0 sep']; [congruence|].
      simpl in E. injection E as <- ->. simpl. rewrite Nat.sub_0_r, replace_from_skip. reflexivity.
    + destruct (partition sep s) as [[p q]|]; [destruct IH as [-> ->]; split|]; simpl;
        rewrite ?IH; reflexivity.
Qed.

Lemma join_cons sep w l : l <> [] -> join sep (w :: l) = w ++ sep ++ join sep l.
Proof. destruct l; [congruence | reflexivity]. Qed.

Lemma split_fuel_ne fuel sep s : split_fuel fuel sep s <> [].
Proof. destruct fuel; simpl; [|destruct (partition sep s) as [[]|]]; discriminate. Qed.

Lemma split_fuel_replace sep new fuel : forall s,
  sep <> EmptyString -> String.length s < fuel ->
  join new (split_fuel fuel sep s) = replace_from sep new 0 s.
Proof.
  induction fuel as [|f IH]; intros s Hne Hl; [lia|].
  pose proof (partition_spec sep new s Hne) as Hs. simpl.
  destruct (partition sep s) as [[p q]|]; [|symmetry; exact Hs].
  destruct Hs as [E ->]. rewrite join_cons by apply split_fuel_ne. f_equal. f_equal.
  apply IH; [exact Hne|]. rewrite E, !str_length_app in Hl.
  destruct sep; [congruence | simpl in Hl; lia].
Qed.

Lemma all_space_app a b : all_space (a ++ b) = all_space a && all_space b.
Proof. induction a as [|c a IH]; simpl; [reflexivity | rewrite IH, andb_assoc; reflexivity]. Qed.

Lemma lstrip_split s : exists pre, s = pre ++ lstrip s /\ all_space pre = true.
Proof.
  induction s as [|c s [pre [E Hp]]]; [exists ""; auto|]. simpl.
  destruct (is_space c) eqn:Hc; [exists (String c pre); simpl; rewrite Hc, <- E; auto|].
  exists ""; auto.
Qed.

Lemma lstrip_head s : match lstrip s with String c _ => is_space c = false | EmptyString => True end.
Proof. induction s as [|c s IH]; simpl; [exact I|]. destruct (is_space c) eqn:Hc; [exact IH | exact Hc]. Qed.

Lemma rstrip_split s : exists suf, s = rstrip s ++ suf /\ all_space suf = true.
Proof.
  induction s as [|c s [suf [E Hs]]]; [exists ""; auto|]. simpl.
  destruct (rstrip s) as [|d r] eqn:Hr; simpl in E.
  - destruct (is_space c) eqn:Hc; [exists (String c s); simpl; rewrite Hc, E; auto|].
    exists s. rewrite E. auto.
  - exists suf. rewrite E at 1. auto.
Qed.

Lemma rstrip_last s :
  match last_char (rstrip s) with Some d => is_space d = false | None => True end.
Proof.
  induction s as [|c s IH]; simpl; [exact I|].
  destruct (rstrip s) as [|d r] eqn:Hr.
  - destruct (is_space c) eqn:Hc; [exact I | exact Hc].
  - exact IH.
Qed.

Lemma rstrip_head c s : is_space c = false -> exists r, rstrip (String c s) = String c r.
Proof. intros Hc. simpl. destruct (rstrip s); [rewrite Hc|]; eexists; reflexivity. Qed.

Lemma strip_is_trimmed s : trimmed (strip s) = true.
Proof.
  unfold strip, trimmed. pose proof (lstrip_head s) as Hh.
  destruct (lstrip s) as [|c t]; [reflexivity|].
  destruct (rstrip_head c t Hh) as [r Hr]. pose proof (rstrip_last (String c t)) as Hl.
  rewrite Hr in *. destruct (last_char (String c r)) as [d|];
    cbn iota; rewrite Hh; [rewrite Hl|]; reflexivity.
Qed.

Lemma strip_of_trimmed s : s <> EmptyString -> trimmed s = true -> strip s = s.
Proof.
  intros Hne Ht. rewrite <- (strip_surrounded "" s "") at 2 by (reflexivity || assumption).
  rewrite str_app_nil_r. reflexivity.
Qed.

Lemma strip_all_space s : all_space s = true -> strip s = EmptyString.
Proof.
  intros H. unfold strip. rewrite <- (str_app_nil_r s), lstrip_app_space by exact H. reflexivity.
Qed.

#[export] Hint Rewrite prefix_app replace_from_skip lstrip_app_space : crawl_rw.

(** ** Reference definitions *)

(** [str.replace] with a non-empty [old], the left-to-right scan of
    [replace_from], is Python's identity
    [s.replace(old, new) == new.join(s.split(old))], with [split] built
    from [str.partition] as the reference. *)
Lemma replace_split_join old new s :
  old <> EmptyString -> replace old new s = join new (split old s).
Proof.
  intros Hne. destruct old as [|c o]; [congruence|]. unfold replace, split.
  symmetry. apply split_fuel_replace; [exact Hne | lia].
Qed.

(** [strip s = core] holds if and only if [s] is [core] surrounded by
    whitespace, [core] neither starts nor ends with whitespace, and
    [core] is empty only when [s] is all whitespace. *)
Lemma strip_spec s core :
  strip s = core <->
  exists pre suf, s = pre ++ core ++ suf /\ all_space pre = true /\ all_space suf = true /\
    trimmed core = true /\ (core = EmptyString -> all_space s = true).
Proof.
  split.
  - intros <-. destruct (lstrip_split s) as [pre [E1 H1]].
    destruct (rstrip_split (lstrip s)) as [suf [E2 H2]].
    exists pre, suf. fold (strip s) in E2.
    assert (Es : s = pre ++ strip s ++ suf) by (rewrite <- E2; exact E1).
    split; [exact Es | split; [exact H1 | split; [exact H2 | split; [apply strip_is_trimmed|]]]].
    intros Hz. rewrite Es, Hz, !all_space_app, H1, H2. reflexivity.
  - intros (pre & suf & -> & H1 & H2 & Ht & Hz). destruct core as [|c r].
    + apply strip_all_space, Hz. reflexivity.
    + apply strip_surrounded; [exact H1 | exact H2 | discriminate | exact Ht].
Qed.


End PyStr.
