(* ===== verification/Soup.v ===== *)
(** * The markup query capability: a model of the BeautifulSoup calls

    [synculario.py] parses each captured page with
    [BeautifulSoup(html, "html.parser")] and queries the tree with
    [findAll]/[find_all] by tag name and class, [.text] and [tag['href']].
    This file models the parsed tree ([node]) and those four queries as
    bs4 defines them: [find_all] walks [descendants] in document order
    (pre-order, the start node excluded) and keeps the tags a strainer
    matches; a string given as [attrs] filters on the multi-valued
    [class] attribute, which matches when one class equals the string or
    when the whitespace-joined class list does.  The HTML tokenizer
    itself is not modelled: pages enter as parsed trees (see
    [Pipeline.v]). *)

From Stdlib Require Import String Ascii List Bool Arith Lia.
From S2P Require Import Prelude PyStr.
Import ListNotations.
Local Open Scope string_scope.

Module Soup.
Import PyStr.

(** A parsed node: text ([NavigableString]), a comment, or a tag with its
    attributes (in source order) and children. *)
#[warnings="-register-all"]
Inductive node : Type :=
| Text (s : string)
| Comment (s : string)
| Tag (name : string) (attrs : list (string * string)) (children : list node).

(** Induction with a hypothesis for every child of a tag. *)
Section node_ind'.
Variable P : node -> Prop.
Hypothesis P_text : forall s, P (Text s).
Hypothesis P_comment : forall s, P (Comment s).
Hypothesis P_tag : forall n a ch, Forall P ch -> P (Tag n a ch).

Fixpoint node_ind' (t : node) : P t :=
  match t with
  | Text s => P_text s
  | Comment s => P_comment s
  | Tag n a ch =>
      P_tag n a ch
        ((fix go (l : list node) : Forall P l :=
            match l with
            | [] => Forall_nil P
            | c :: l' => Forall_cons c (node_ind' c) (go l')
            end) ch)
  end.
End node_ind'.

(** [tag.descendants]: every node below [t], in document order. *)
Fixpoint descendants (t : node) : list node :=
  match t with
  | Tag _ _ ch => flat_map (fun c => c :: descendants c) ch
  | _ => []
  end.

(** The descendants of the soup object, whose contents are the top-level
    nodes of the document. *)
Definition doc_descendants (doc : list node) : list node :=
  flat_map (fun c => c :: descendants c) doc.

(** [.text] = [get_text()]: the text nodes below, concatenated; comments
    are not part of it. *)
Fixpoint get_text (t : node) : string :=
  match t with
  | Text s => s
  | Comment _ => ""
  | Tag _ _ ch => String.concat "" (map get_text ch)
  end.

Fixpoint attr_get (attrs : list (string * string)) (k : string) : option string :=
  match attrs with
  | [] => None
  | (k', v) :: rest => if String.eqb k k' then Some v else attr_get rest k
  end.

(** [tag[key]]: a [KeyError] when the attribute is absent. *)
Definition getitem (t : node) (k : string) : result string :=
  match t with
  | Tag _ attrs _ => match attr_get attrs k with Some v => Ok v | None => Err (KeyError k) end
  | _ => Err (KeyError k)
  end.

(** bs4 stores [class] as the list of its whitespace-separated words. *)
Fixpoint split_ws_acc (cur : string) (s : string) : list string :=
  match s with
  | EmptyString => if String.eqb cur "" then [] else [cur]
  | String c s' =>
      if is_space c
      then (if String.eqb cur "" then split_ws_acc "" s' else cur :: split_ws_acc "" s')
      else split_ws_acc (cur ++ String c EmptyString) s'
  end.

Definition split_ws (s : string) : list string := split_ws_acc "" s.

(** [SoupStrainer._matches] for a string against the class list. *)
Definition class_match (cls : string) (v : string) : bool :=
  let words := split_ws v in
  existsb (String.eqb cls) words || String.eqb (join " " words) cls.

(** The filters of [find_all(name)] and [find_all(name, attrs=cls)]. *)
Record strainer := { st_name : string; st_class : option string }.

Definition by_name (n : string) : strainer := {| st_name := n; st_class := None |}.
Definition by_class (n c : string) : strainer := {| st_name := n; st_class := Some c |}.

Definition matches (f : strainer) (t : node) : bool :=
  match t with
  | Tag n attrs _ =>
      String.eqb n (st_name f) &&
      match st_class f with
      | None => true
      | Some c => match attr_get attrs "class" with
                  | Some v => class_match c v
                  | None => false
                  end
      end
  | _ => false
  end.

(** [tag.find_all(...)] *)
Definition find_all (f : strainer) (t : node) : list node :=
  filter (matches f) (descendants t).

(** [soup.findAll(...)] on the whole document. *)
Definition soup_find_all (f : strainer) (doc : list node) : list node :=
  filter (matches f) (doc_descendants doc).

(** ** The descendant relation, the specification of [find_all] *)

Inductive desc : node -> node -> Prop :=
| desc_child n a ch c : In c ch -> desc c (Tag n a ch)
| desc_deep n a ch c d : In c ch -> desc d c -> desc d (Tag n a ch).

Lemma descendants_spec d t : In d (descendants t) <-> desc d t.
Proof.
  revert d. induction t as [s|s|n a ch IH] using node_ind'; intros d; simpl.
  - split; [tauto | intros H; inv H].
  - split; [tauto | intros H; inv H].
  - rewrite in_flat_map. split.
    + intros (c & Hc & [-> | Hd]); [now constructor|].
      rewrite Forall_forall in IH. apply IH in Hd; [|exact Hc]. eapply desc_deep; eauto.
    + intros H. inv H; [eauto using in_eq|].
      rewrite Forall_forall in IH. eexists; split; [eassumption|].
      right. apply IH; assumption.
Qed.

Lemma find_all_tag f n a ch :
  find_all f (Tag n a ch) =
  flat_map (fun c => (filter (matches f) [c] ++ find_all f c)%list) ch.
Proof.
  unfold find_all; simpl. induction ch as [|c ch IH]; simpl; [reflexivity|].
  rewrite filter_app, IH. destruct (matches f c); reflexivity.
Qed.

Lemma soup_find_all_app f d1 d2 :
  soup_find_all f (d1 ++ d2)%list = (soup_find_all f d1 ++ soup_find_all f d2)%list.
Proof. unfold soup_find_all, doc_descendants. rewrite flat_map_app, filter_app. reflexivity. Qed.

#[export] Hint Rewrite find_all_tag soup_find_all_app : crawl_rw.

(** [tag.find_all(...)] refines its specification: a node is in the
    result exactly when it lies strictly below [tag] ([desc], the start
    node excluded) and the strainer matches it. *)
Lemma find_all_spec f t d : In d (find_all f t) <-> desc d t /\ matches f d = true.
Proof. unfold find_all. rewrite filter_In, descendants_spec. reflexivity. Qed.

(** The same for [soup.findAll(...)] on the whole document. *)
Lemma soup_find_all_spec f doc d :
  In d (soup_find_all f doc) <->
  (In d doc \/ exists top, In top doc /\ desc d top) /\ matches f d = true.
Proof.
  unfold soup_find_all, doc_descendants. rewrite filter_In, in_flat_map. split.
  - intros [(top & Ht & [<- | Hd]) Hm]; split; auto.
    right. exists top. rewrite <- descendants_spec. auto.
  - intros [[Hin | (top & Ht & Hd)] Hm]; split; auto.
    + exists d. simpl. auto.
    + exists top. simpl. rewrite descendants_spec. auto.
Qed.

End Soup.
