(* ===== verification/Extract.v ===== *)
(** * PageParser: the row extraction of [get_synculario_offers]

    [synculario.py] lines 34-44: for every captured page, every
    [div.job-list] block yields one Python list of nine strings, built
    left to right from the first [h2], the [href] of the first
    [a.button-read2], the first [h5], the first [li.company] and the first
    [li."job-type temporary"]; a missing element raises [IndexError] and a
    missing [href] raises [KeyError], which abort the whole extraction.
    [extract_row], [extract_page] and [extract_data] follow the code; the
    fixture [render_job] builds a well-formed block, and the theorems
    show what a block and a page turn into. *)

From Stdlib Require Import String Ascii List Bool Arith ZArith Lia.
From S2P Require Import Prelude PyStr Soup.
Import ListNotations.
Local Open Scope string_scope.

Module Extract.
Import PyStr Soup.

(** The constants of [get_synculario_offers]. *)
Definition base_url : string := "https://synculario.odoo.com".
Definition agency : string := "synculario".
Definition contract_prefix : string := "Contract type:" ++ nl.
Definition salary_prefix : string := "Salary:" ++ nl ++ nl.

(** The strainers of lines 37-43. *)
Definition job_list_f : strainer := by_class "div" "job-list".
Definition title_f : strainer := by_name "h2".
Definition link_f : strainer := by_class "a" "button-read2".
Definition location_f : strainer := by_name "h5".
Definition job_type_f : strainer := by_class "li" "company".
Definition pay_rate_f : strainer := by_class "li" "job-type temporary".

(** [str(x.text).strip()] *)
Definition text_strip (t : node) : string := strip (get_text t).

(** Lines 39-44 for one [row]: the list appended to [data]. *)
Definition extract_row (base_url : string) (row : node) : result (list string) :=
  let job_title := find_all title_f row in
  let link := find_all link_f row in
  let location := find_all location_f row in
  let job_type := find_all job_type_f row in
  let pay_rate := find_all pay_rate_f row in
  t <- py_getitem job_title 0%Z ;;
  a <- py_getitem link 0%Z ;;
  href <- getitem a "href" ;;
  loc <- py_getitem location 0%Z ;;
  jt <- py_getitem job_type 0%Z ;;
  pr <- py_getitem pay_rate 0%Z ;;
  ret [text_strip t; base_url ++ href; agency; text_strip loc; "";
       replace contract_prefix "" (text_strip jt); "";
       replace salary_prefix "" (text_strip pr); ""].

(** Lines 37-44 for one parsed page. *)
Definition extract_page (base_url : string) (doc : list node) : result (list (list string)) :=
  mapM (extract_row base_url) (soup_find_all job_list_f doc).

(** Lines 34-44: [data] after the loop over all pages, or the first
    exception. *)
Definition extract_data (base_url : string) (docs : list (list node)) : result (list (list string)) :=
  rows <- mapM (extract_page base_url) docs ;; ret (concat rows).

(** ** A well-formed listing block *)

Record job := {
  j_title : string; j_href : string; j_location : string;
  j_contract : string; j_salary : string }.

Definition render_job (j : job) : node :=
  Tag "div" [("class", "job-list")]
    [ Tag "h2" [] [Text (j_title j)];
      Tag "a" [("class", "button-read2"); ("href", j_href j)] [Text "Read more"];
      Tag "h5" [] [Text (j_location j)];
      Tag "ul" []
        [ Tag "li" [("class", "company")] [Text (contract_prefix ++ j_contract j)];
          Tag "li" [("class", "job-type temporary")] [Text (salary_prefix ++ j_salary j)] ] ].

Definition page_doc (js : list job) : list node :=
  [Tag "html" [] [Tag "body" [] (map render_job js)]].

(** The fields a block's text must have for the row to carry them
    unchanged: no surrounding whitespace, and no copy of the prefix the
    code removes. *)
Definition job_ok (j : job) : bool :=
  negb (String.eqb (j_title j) "") && trimmed (j_title j) &&
  negb (String.eqb (j_location j) "") && trimmed (j_location j) &&
  negb (String.eqb (j_contract j) "") && trimmed (j_contract j) &&
  negb (occurs contract_prefix (j_contract j)) &&
  negb (String.eqb (j_salary j) "") && trimmed (j_salary j) &&
  negb (occurs salary_prefix (j_salary j)).

(** The row the code builds for a well-formed block. *)
Definition job_row (base_url : string) (j : job) : list string :=
  [j_title j; base_url ++ j_href j; agency; j_location j; ""; j_contract j; "";
   j_salary j; ""].

(** The blocks of all pages, in page and document order. *)
Definition job_blocks (docs : list (list node)) : list node :=
  concat (map (soup_find_all job_list_f) docs).

(** The stripped text of a block's first [li.company] without the
    contract prefix. *)
Definition company_text (blk : node) : string :=
  match find_all job_type_f blk with
  | jt :: _ => replace contract_prefix "" (text_strip jt)
  | [] => ""
  end.

(** ** Lemmas *)

Lemma trimmed_prefix c p s :
  is_space c = false -> s <> EmptyString -> trimmed s = true ->
  trimmed (String c p ++ s) = true.
Proof.
  intros Hc Hne Ht. destruct s as [|d s]; [congruence|].
  change (trimmed (String c (p ++ String d s)) = true).
  unfold trimmed. cbv beta iota. rewrite Hc. simpl negb. cbv beta iota.
  change (String c (p ++ String d s)) with (String c p ++ String d s).
  rewrite last_char_app_cons. unfold trimmed in Ht.
  apply andb_true_iff in Ht as [_ Ht]. exact Ht.
Qed.

(** A field written as [prefix ++ v] comes out as [v]. *)
Lemma clean_field p c v :
  is_space c = false -> v <> EmptyString -> trimmed v = true ->
  occurs (String c p) v = false ->
  replace (String c p) "" (strip (String c p ++ v)) = v.
Proof.
  intros Hc Hne Ht Ho. rewrite strip_of_trimmed.
  - rewrite replace_app_old by discriminate. apply replace_absent; [discriminate | exact Ho].
  - destruct v; [congruence | discriminate].
  - apply trimmed_prefix; assumption.
Qed.

(** The two prefixes of line 44 start with a non-space character. *)
Lemma clean_prefix p v :
  p = contract_prefix \/ p = salary_prefix ->
  v <> EmptyString -> trimmed v = true -> occurs p v = false ->
  replace p "" (strip (p ++ v)) = v.
Proof.
  intros [-> | ->]; [exact (clean_field ("ontract type:" ++ nl) "C" v eq_refl)
                    | exact (clean_field ("alary:" ++ nl ++ nl) "S" v eq_refl)].
Qed.

Lemma text_node_strip s : text_strip (Tag "x" [] [Text s]) = strip s.
Proof. reflexivity. Qed.

Lemma negb_eqb_empty s : negb (String.eqb s "") = true -> s <> EmptyString.
Proof. intros H ->. discriminate H. Qed.

Lemma extract_row_render b j :
  extract_row b (render_job j) =
  Ok [strip (j_title j); b ++ j_href j; agency; strip (j_location j); "";
      replace contract_prefix "" (strip (contract_prefix ++ j_contract j)); "";
      replace salary_prefix "" (strip (salary_prefix ++ j_salary j)); ""].
Proof. reflexivity. Qed.

Lemma find_jobs_page js : soup_find_all job_list_f (page_doc js) = map render_job js.
Proof.
  induction js as [|j js IH]; [reflexivity|].
  unfold soup_find_all, page_doc, doc_descendants in *. simpl in *.
  f_equal. exact IH.
Qed.

Ltac job_ok_split H :=
  unfold job_ok in H; repeat (apply andb_true_iff in H as [H ?]);
  repeat match goal with
         | H : negb (String.eqb _ "") = true |- _ => apply negb_eqb_empty in H
         | H : negb (occurs _ _) = true |- _ => apply negb_true_iff in H
         end.

(** ** Theorems *)

(** A well-formed listing block (title, link, location, contract and
    salary items whose texts have no surrounding whitespace and no copy of
    the removed prefix) is turned into the row [title; base_url ++ href;
    "synculario"; location; ""; contract; ""; salary; ""]. *)
Lemma extract_row_job b j :
  job_ok j = true -> extract_row b (render_job j) = Ok (job_row b j).
Proof.
  intros H. job_ok_split H. rewrite extract_row_render. unfold job_row.
  rewrite !strip_of_trimmed by assumption.
  rewrite !clean_prefix by first [now left | now right | assumption]. reflexivity.
Qed.

Lemma extract_page_jobs_run b js :
  forallb job_ok js = true -> extract_page b (page_doc js) = Ok (map (job_row b) js).
Proof.
  intros H. unfold extract_page. rewrite find_jobs_page.
  induction js as [|j js IH]; [reflexivity|].
  simpl in H. apply andb_true_iff in H as [Hj Hjs]. cbn [mapM map].
  rewrite extract_row_job by exact Hj. rewrite IH by exact Hjs. reflexivity.
Qed.

Lemma extract_data_jobs b jss :
  forallb (forallb job_ok) jss = true ->
  extract_data b (map page_doc jss) = Ok (concat (map (map (job_row b)) jss)).
Proof.
  intros H. unfold extract_data. cbn [bind Monad_result]. unfold result_bind.
  enough (E : mapM (extract_page b) (map page_doc jss) = Ok (map (map (job_row b)) jss))
    by (rewrite E; reflexivity).
  induction jss as [|js jss IH]; [reflexivity|].
  simpl in H. apply andb_true_iff in H as [Hj Hjs]. cbn [mapM map].
  rewrite extract_page_jobs_run by exact Hj. rewrite IH by exact Hjs. reflexivity.
Qed.

(** C7: On a page whose body holds a sequence of well-formed blocks, the
    extraction returns one row per block, in document order. *)
Theorem extract_page_jobs b js :
  forallb job_ok js = true -> extract_page b (page_doc js) = Ok (map (job_row b) js).
Proof. apply extract_page_jobs_run. Qed.

Example extract_page_two_jobs :
  extract_page base_url
    (page_doc [ {| j_title := "Data Analyst"; j_href := "/jobs/42"; j_location := "Prague";
                   j_contract := "Full-time"; j_salary := "50 000 CZK" |};
                {| j_title := "Tester"; j_href := "/jobs/43"; j_location := "Brno";
                   j_contract := "Part-time"; j_salary := "30 000 CZK" |} ]) =
  Ok [ ["Data Analyst"; "https://synculario.odoo.com/jobs/42"; "synculario"; "Prague"; "";
        "Full-time"; ""; "50 000 CZK"; ""];
       ["Tester"; "https://synculario.odoo.com/jobs/43"; "synculario"; "Brno"; "";
        "Part-time"; ""; "30 000 CZK"; ""] ].
Proof. apply extract_page_jobs. reflexivity. Defined.

(** C23: A block without an [h2] heading raises [IndexError] before any
    other field is read. *)
Theorem extract_row_no_title b row :
  find_all title_f row = [] -> extract_row b row = Err IndexError.
Proof. intros H. unfold extract_row. rewrite H. reflexivity. Qed.

Example extract_row_no_title_witness :
  find_all title_f (Tag "div" [("class", "job-list")] [Tag "h5" [] [Text "Prague"]]) = [] /\
  extract_row base_url (Tag "div" [("class", "job-list")] [Tag "h5" [] [Text "Prague"]])
  = Err IndexError.
Proof. split; [reflexivity | apply extract_row_no_title; reflexivity]. Defined.

(** C24: A block whose first [a.button-read2] has no [href] raises
    [KeyError 'href'] (after a title was found). *)
Theorem extract_row_no_href b row t ts a rest :
  find_all title_f row = t :: ts -> find_all link_f row = a :: rest ->
  getitem a "href" = Err (KeyError "href") ->
  extract_row b row = Err (KeyError "href").
Proof. intros Ht Hl Ha. unfold extract_row. rewrite Ht, Hl. simpl. rewrite Ha. reflexivity. Qed.

Example extract_row_no_href_witness :
  let row := Tag "div" [("class", "job-list")]
               [Tag "h2" [] [Text "Tester"]; Tag "a" [("class", "button-read2")] []] in
  find_all title_f row = [Tag "h2" [] [Text "Tester"]] /\
  find_all link_f row = [Tag "a" [("class", "button-read2")] []] /\
  getitem (Tag "a" [("class", "button-read2")] []) "href" = Err (KeyError "href") /\
  extract_row base_url row = Err (KeyError "href").
Proof.
  intros row. split; [reflexivity|]. split; [reflexivity|]. split; [reflexivity|].
  eapply extract_row_no_href; reflexivity.
Defined.

(** The cells of a row, read off a successful extraction. *)
Lemma extract_row_Ok_inv b row r :
  extract_row b row = Ok r ->
  exists t a href loc jt pr,
    hd_error (find_all title_f row) = Some t /\
    hd_error (find_all link_f row) = Some a /\ getitem a "href" = Ok href /\
    hd_error (find_all location_f row) = Some loc /\
    hd_error (find_all job_type_f row) = Some jt /\
    hd_error (find_all pay_rate_f row) = Some pr /\
    r = [text_strip t; b ++ href; agency; text_strip loc; "";
         replace contract_prefix "" (text_strip jt); "";
         replace salary_prefix "" (text_strip pr); ""].
Proof.
  unfold extract_row. cbn [bind Monad_result]. unfold result_bind.
  rewrite !py_getitem_zero_hd.
  destruct (hd_error (find_all title_f row)) as [t|]; cbn [result_bind]; [|discriminate].
  destruct (hd_error (find_all link_f row)) as [a|]; cbn [result_bind]; [|discriminate].
  destruct (getitem a "href") as [href|] eqn:Eh; cbn [result_bind]; [|discriminate].
  destruct (hd_error (find_all location_f row)) as [loc|]; cbn [result_bind]; [|discriminate].
  destruct (hd_error (find_all job_type_f row)) as [jt|]; cbn [result_bind]; [|discriminate].
  destruct (hd_error (find_all pay_rate_f row)) as [pr|]; cbn [result_bind]; [|discriminate].
  intros H. injection H as <-. exists t, a, href, loc, jt, pr. auto 10.
Qed.

(** A successful extraction has one row per block, in order. *)
Lemma extract_data_blocks b docs data :
  extract_data b docs = Ok data -> Forall2 (fun blk r => extract_row b blk = Ok r) (job_blocks docs) data.
Proof.
  unfold extract_data, job_blocks. cbn [bind Monad_result]. unfold result_bind.
  destruct (mapM (extract_page b) docs) as [pages|] eqn:Ep; [|discriminate].
  intros H. injection H as <-. apply Forall2_concat.
  apply mapM_ok_iff in Ep. induction Ep as [|d rows docs' pages' Hd _ IH]; constructor; [|exact IH].
  apply mapM_ok_iff, Hd.
Qed.

Lemma extract_row_company b blk r : extract_row b blk = Ok r -> nth 5 r "" = company_text blk.
Proof.
  intros Hr. destruct (extract_row_Ok_inv _ _ _ Hr) as (t & a & href & loc & jt & pr & _ & _ & _ & _ & Hj & _ & ->).
  unfold company_text. destruct (find_all job_type_f blk); [discriminate|]. injection Hj as ->. reflexivity.
Qed.

(** Every row of [extract_data] has the nine cells of line 44, with the
    constant and empty ones in place. *)
Lemma extract_data_rows b docs data :
  extract_data b docs = Ok data ->
  Forall (fun r => length r = 9 /\ nth 2 r "" = agency /\ nth 4 r "" = "" /\
                   nth 6 r "" = "" /\ nth 8 r "" = "" /\
                   exists href, nth 1 r "" = b ++ href) data.
Proof.
  unfold extract_data. cbn [bind Monad_result]. unfold result_bind.
  destruct (mapM (extract_page b) docs) as [pages|] eqn:Ep; [|discriminate].
  intros H. injection H as <-. apply Forall_concat.
  apply mapM_ok_iff in Ep. induction Ep as [|d rows docs' pages' Hd _ IH]; constructor; [|exact IH].
  unfold extract_page in Hd. apply mapM_ok_iff in Hd.
  induction Hd as [|row r rows' rs Hr _ IH']; constructor; [|exact IH'].
  destruct (extract_row_Ok_inv _ _ _ Hr) as (t & a & href & loc & jt & pr & _ & _ & _ & _ & _ & _ & ->).
  simpl. repeat split; eauto.
Qed.

(** The [job_type] cell of a block whose item text is the prefix, a
    space and [v]: stripping runs before the prefix is removed. *)
Lemma clean_inner_space v :
  v <> EmptyString -> trimmed v = true -> occurs contract_prefix (" " ++ v) = false ->
  replace contract_prefix "" (strip (contract_prefix ++ " " ++ v)) = " " ++ v.
Proof.
  intros Hne Ht Ho. rewrite strip_of_trimmed.
  - rewrite replace_app_old by discriminate. apply replace_absent; [discriminate | exact Ho].
  - discriminate.
  - replace (contract_prefix ++ " " ++ v) with (String "C" ("ontract type:" ++ nl ++ " ") ++ v)
      by (unfold contract_prefix; rewrite !str_app_assoc; reflexivity).
    apply trimmed_prefix; [reflexivity | exact Hne | exact Ht].
Qed.

(** C25: [extract_row] strips the [li.company] text before it removes
    ["Contract type:\n"], never after: in a block whose item reads the
    prefix, a space and the contract type, the [emp_type] cell keeps
    that space at its front. *)
Theorem contract_cell_keeps_inner_space b j v :
  j_contract j = " " ++ v -> v <> EmptyString -> trimmed v = true ->
  occurs contract_prefix (" " ++ v) = false ->
  exists r, extract_row b (render_job j) = Ok r /\ nth 5 r "" = " " ++ v.
Proof.
  intros Hj Hne Ht Ho. rewrite extract_row_render. eexists. split; [reflexivity|].
  cbn [nth]. rewrite Hj. apply clean_inner_space; assumption.
Qed.

Example contract_cell_keeps_inner_space_witness :
  exists r, extract_row base_url
              (render_job {| j_title := "Tester"; j_href := "/jobs/43"; j_location := "Brno";
                             j_contract := " Full-time"; j_salary := "30 000 CZK" |}) = Ok r /\
            nth 5 r "" = " Full-time".
Proof.
  exact (contract_cell_keeps_inner_space base_url
           {| j_title := "Tester"; j_href := "/jobs/43"; j_location := "Brno";
              j_contract := " Full-time"; j_salary := "30 000 CZK" |} "Full-time"
           eq_refl ltac:(discriminate) eq_refl eq_refl).
Defined.

End Extract.
