(* ===== verification/Browser.v ===== *)
(** * BrowserSession: [browser_handler.py]

    The selenium WebDriver is an external collaborator; [WebDriver] states
    the capabilities the code calls (one field per driver method, each
    acting on an abstract browser world [W] and returning a result that
    may be a selenium exception), and [time.sleep] as the world evolving
    while the program pauses.

    [BrowserHandler(headless)] ([new_handler]) takes the driver path
    from [_get_web_driver], whose install may raise.  The handler keeps
    [driver] (None until [set_driver]), [headless], [resource_data],
    [path_to_driver], and a log [calls] of the driver calls made and
    the exceptions printed, in order.  Each method is a computation in
    the state-and-exception monad [st handler] of the prelude; calling
    through [driver = None] raises [AttributeError] as Python does.
    Launching Chrome and deleting cookies may raise, so [set_driver] may
    fail and leave [driver] unset; [time.sleep] needs no driver.  [WebDriverWait.until] is a Fixpoint on its number of
    polls; the lazy-loading loop is in [LazyLoad.v]. *)

From Stdlib Require Import String Ascii List Bool Arith ZArith Lia.
From S2P Require Import Prelude.
Import ListNotations.
Local Open Scope string_scope.

Module Browser.

(** [(By.X, "value")] tuples; [By.CSS_SELECTOR] is ["css selector"]. *)
Record locator := { by_ : string; value : string }.
Definition css (sel : string) : locator := {| by_ := "css selector"; value := sel |}.

(** A WebElement handle. *)
Definition elem := nat.

(** The JavaScript snippets the code passes to [execute_script]. *)
Inductive script : Type :=
| JsClick                          (* "arguments[0].click();" *)
| JsScrollIntoView                 (* "arguments[0].scrollIntoView(true);" *)
| JsScrollToBottom                 (* "window.scrollTo(0,document.body.scrollHeight);" *)
| JsScrollHeight                   (* "return document.body.scrollHeight" *)
| JsSetValue (id data : string).   (* "document.getElementById('{}').value = `{}`" *)

(** Python values returned by [execute_script] or by a wait condition. *)
Inductive pyval : Type :=
| PyNone
| PyBool (b : bool)
| PyInt (z : Z)
| PyStr (s : string)
| PyCallable.

Definition truthy (v : pyval) : bool :=
  match v with
  | PyNone => false
  | PyBool b => b
  | PyInt z => negb (Z.eqb z 0)
  | PyStr s => negb (String.eqb s "")
  | PyCallable => true
  end.

(** Python [==] on these values. *)
Definition pyval_eqb (a b : pyval) : bool :=
  match a, b with
  | PyNone, PyNone => true
  | PyBool x, PyBool y => Bool.eqb x y
  | PyInt x, PyInt y => Z.eqb x y
  | PyBool x, PyInt y | PyInt y, PyBool x => Z.eqb (if x then 1 else 0) y
  | PyStr x, PyStr y => String.eqb x y
  | _, _ => false
  end.

(** The capabilities of the external browser. *)
Class WebDriver (W : Type) := {
  wd_launch : string -> list string -> result W;
  wd_get : string -> W -> W * result unit;
  wd_current_url : W -> string;
  wd_page_source : W -> string;
  wd_find_element : locator -> W -> result elem;
  wd_find_elements : locator -> W -> list elem;
  wd_click : elem -> W -> W * result unit;
  wd_execute_script : script -> list elem -> W -> W * result pyval;
  wd_delete_all_cookies : W -> W * result unit;
  wd_close : W -> W;
  wd_text : elem -> W -> string;
  wd_tag_name : elem -> W -> string;
  wd_is_enabled : elem -> W -> bool;
  wd_is_displayed : elem -> W -> bool;
  wd_select_by_value : elem -> string -> W -> W * result unit;
  wd_sleep : nat -> W -> W
}.

(** The effects of the handler, as recorded in its log: the driver
    calls, the pauses, and the exceptions written to standard output by
    [print(e)] ([CPrint]). *)
Inductive call : Type :=
| CLaunch | CGet (url : string) | CCurrentUrl | CPageSource
| CFindElement (l : locator) | CFindElements (l : locator)
| CClick (e : elem) | CScript (js : script) | CDeleteCookies | CClose
| CText (e : elem) | CTagName (e : elem) | CIsEnabled (e : elem) | CIsDisplayed (e : elem)
| CSelect (e : elem) (v : string) | CSleep (ms : nat) | CPrint (e : exn).

Section Handler.
Context {W : Type} `{WebDriver W}.

Record handler := {
  driver : option W;
  headless : bool;
  resource_data : list string;
  path_to_driver : string;
  calls : list call }.

Definition set_calls (h : handler) (cs : list call) : handler :=
  {| driver := driver h; headless := headless h; resource_data := resource_data h;
     path_to_driver := path_to_driver h; calls := cs |}.

(** The handler after driver calls [cs] left the browser in [w]. *)
Definition upd (h : handler) (w : W) (cs : list call) : handler :=
  {| driver := Some w; headless := headless h; resource_data := resource_data h;
     path_to_driver := path_to_driver h; calls := calls h ++ cs |}.

Definition set_world (h : handler) (w : W) (c : call) : handler := upd h w [c].

Abbreviation M := (st handler).

(** One call on [self.driver]: [AttributeError] when it is [None]. *)
Definition drv {A} (name : string) (c : call) (f : W -> W * result A) : M A :=
  fun h => match driver h with
           | None => (h, Err (AttributeError name))
           | Some w => let (w', r) := f w in (set_world h w' c, r)
           end.

Definition drv_pure {A} (name : string) (c : call) (f : W -> A) : M A :=
  drv name c (fun w => (w, Ok (f w))).

(** [time.sleep(ms / 1000)]: the browser, when there is one, keeps
    working meanwhile. *)
Definition sleep (ms : nat) : M unit :=
  fun h => match driver h with
           | None => (set_calls h (calls h ++ [CSleep ms]), Ok tt)
           | Some w => (set_world h (wd_sleep ms w) (CSleep ms), Ok tt)
           end.

Definition execute_script (js : script) (args : list elem) : M pyval :=
  drv "execute_script" (CScript js) (wd_execute_script js args).

(** [print(e)] *)
Definition print_exn (e : exn) : M unit := fun h => (set_calls h (calls h ++ [CPrint e]), Ok tt).

(** [__init__] (lines 15-20); [path] is what [_get_web_driver] returns. *)
Definition init (headless_ : bool) (path : string) : handler :=
  {| driver := None; headless := headless_; resource_data := [];
     path_to_driver := path; calls := [] |}.

(** [_get_web_driver] (lines 22-26): [ChromeDriverManager().install()]
    is the library call [install] (the path of the installed driver, or
    the exception it raises); the two [print]s are the lines written to
    standard output, the second only after a successful install. *)
Definition get_web_driver (install : result string) : list string * result string :=
  match install with
  | Ok p => (["START: Installing chrome web driver"; "DONE: Installing chrome web driver"], Ok p)
  | Err e => (["START: Installing chrome web driver"], Err e)
  end.

(** [BrowserHandler(headless)] (lines 15-20): the fields of [init], with
    the path [_get_web_driver] returns; its exception escapes the
    constructor. *)
Definition new_handler (headless_ : bool) (install : result string) : list string * result handler :=
  let (out, r) := get_web_driver install in
  (out, match r with Ok p => Ok (init headless_ p) | Err e => Err e end).

(** [set_resource_data] (lines 28-29). *)
Definition set_resource_data (rd : list string) : M unit :=
  fun h => ({| driver := driver h; headless := headless h; resource_data := rd;
               path_to_driver := path_to_driver h; calls := calls h |}, Ok tt).

(** The Chrome arguments of [set_driver] (lines 32-44), in order. *)
Definition chrome_arguments (proxy : string) (headless_ : bool) : list string :=
  ["--proxy-server=" ++ proxy; "--dns-prefetch-disable"; "--start-maximized"; "--incognito"]
  ++ (if headless_ then ["--headless"] else [])
  ++ ["--no-sandbox"; "--disable-gpu"; "--disable-dev-shm-usage"; "--window-size=1920,1080"].

(** [set_driver] (lines 31-48); [proxy] is [os.getenv('http_proxy', '')].
    When [webdriver.Chrome(...)] (line 46) raises, [self.driver] is not
    assigned and the exception escapes. *)
Definition set_driver (proxy : string) : M unit :=
  fun h =>
    match wd_launch (path_to_driver h) (chrome_arguments proxy (headless h)) with
    | Err e => (set_calls h (calls h ++ [CLaunch]), Err e)
    | Ok w => drv "delete_all_cookies" CDeleteCookies wd_delete_all_cookies (set_world h w CLaunch)
    end.

(** [get_url] (lines 54-59): a selenium failure is printed and dropped. *)
Definition get_url (url : string) : M unit :=
  try_except (drv "get" (CGet url) (wd_get url) ;;; sleep 100)
    (fun e => if is_webdriver_exception e then Some (print_exn e) else None).

(** The [get_driver] property (lines 50-52). *)
Definition get_driver : M (option W) := fun h => (h, Ok (driver h)).

Definition get_current_url : M string :=
  drv_pure "current_url" CCurrentUrl wd_current_url.

Definition page_source : M string :=
  drv_pure "page_source" CPageSource wd_page_source.

Definition find_element (l : locator) : M elem :=
  drv "find_element" (CFindElement l) (fun w => (w, wd_find_element l w)).

Definition find_elements (l : locator) : M (list elem) :=
  drv_pure "find_elements" (CFindElements l) (wd_find_elements l).

(** [WebElement.click()] *)
Definition click (e : elem) : M unit := drv "click" (CClick e) (wd_click e).

(** [str.lower] on the code points 0-255 (ASCII and Latin-1 capitals). *)
Definition lower_char (c : ascii) : ascii :=
  let n := nat_of_ascii c in
  if (Nat.leb 65 n && Nat.leb n 90) || (Nat.leb 192 n && Nat.leb n 222 && negb (Nat.eqb n 215))
  then ascii_of_nat (n + 32) else c.

Definition lower (s : string) : string :=
  string_of_list_ascii (map lower_char (list_ascii_of_string s)).

(** [select_item] (lines 64-66) and [select] (lines 136-138):
    [Select(element)] reads the element's tag name and raises
    [UnexpectedTagNameException] unless it is [select], then
    [select_by_value] raises when no option has the value. *)
Definition select (e : elem) (v : string) : M unit :=
  tag <- drv_pure "tag_name" (CTagName e) (wd_tag_name e) ;;
  if String.eqb (lower tag) "select"
  then drv "select_by_value" (CSelect e v) (wd_select_by_value e v)
  else raise (UnexpectedTagNameException ("Select only works on <select> elements, not on " ++ tag)).

Definition select_item (selector item : string) : M unit :=
  e <- find_element (css selector) ;; select e item.

(** [click_element] (lines 68-69). *)
Definition click_element (button : string) : M unit :=
  e <- find_element (css button) ;; click e.

(** [js_click_element] (lines 71-73) and [js_click_on_element] (75-76). *)
Definition js_click_on_element (e : elem) : M unit :=
  execute_script JsClick [e] ;;; ret tt.

Definition js_click_element (l : locator) : M unit :=
  e <- find_element l ;; js_click_on_element e.

(** [quit_driver] (lines 78-79): [driver.close()]. *)
Definition quit_driver : M unit :=
  drv "close" CClose (fun w => (wd_close w, Ok tt)).

(** [WebDriverWait(driver, timeout).until(method)] with selenium's
    default poll of 500 ms: [method] is called, a truthy value is
    returned, otherwise the loop sleeps and gives up after
    [timeout / poll] sleeps with a [TimeoutException].  [method] receives
    [self.driver] as it is, [None] included. *)
Fixpoint until_loop (polls : nat) (method : option W -> pyval) : M pyval :=
  d <- get_st ;;
  let v := method (driver d) in
  if truthy v then ret v
  else sleep 500 ;;;
       match polls with
       | O => raise (TimeoutException "")
       | S n => until_loop n method
       end.

Definition until (timeout_ms : nat) (method : option W -> pyval) : M pyval :=
  until_loop (timeout_ms / 500) method.

(** [wait_until_element_visible] (lines 81-86).  The lambda returns the
    condition object [ec.visibility_of_element_located(element)] itself,
    without applying it to the driver: a callable, which is truthy. *)
Definition visibility_lambda (l : locator) : option W -> pyval := fun _ => PyCallable.

Definition wait_until_element_visible (l : locator) (delay_s : nat) : M bool :=
  try_except (until (delay_s * 1000) (visibility_lambda l) ;;; ret true)
    (fun e => match e with TimeoutException _ => Some (ret false) | _ => None end).

(** [get_element] (lines 88-96). *)
Definition get_element (l : locator) : M elem :=
  try_except (wait_until_element_visible l 15 ;;; find_element l)
    (fun e => match e with
              | NoSuchElementException _ => Some (raise (NoSuchElementException "Element not found."))
              | TimeoutException _ =>
                  Some (raise (TimeoutException "Takes too long (>5s) to locate element."))
              | _ => None
              end).

(** [get_element_text] (lines 98-99). *)
Definition get_element_text (l : locator) : M string :=
  e <- get_element l ;; drv_pure "text" (CText e) (wd_text e).

(** [get_element_click] (lines 101-103). *)
Definition get_element_click (l : locator) : M unit :=
  sleep 100 ;;; e <- get_element l ;; click e.

(** [clear_cookies] (lines 105-107): [return self] returns the handler
    as it is after the call. *)
Definition clear_cookies : M handler :=
  drv "delete_all_cookies" CDeleteCookies wd_delete_all_cookies ;;; get_st.

(** [scroll_view_to_bottom] (lines 115-116). *)
Definition scroll_view_to_bottom : M unit :=
  execute_script JsScrollToBottom [] ;;; ret tt.

(** [scroll_element_into_view] (lines 118-124). *)
Definition scroll_element_into_view (l : locator) : M unit :=
  e <- find_element l ;; execute_script JsScrollIntoView [e] ;;; ret tt.

(** [scroll_to_given_element] (lines 126-131). *)
Definition scroll_to_given_element (e : elem) : M unit :=
  execute_script JsScrollIntoView [e] ;;; ret tt.

(** [paste] (lines 133-134). *)
Definition paste (id data : string) : M unit :=
  execute_script (JsSetValue id data) [] ;;; ret tt.

(** [is_displayed] (lines 155-162). *)
Definition is_displayed (l : locator) : M bool :=
  es <- find_elements l ;; ret (Nat.ltb 0 (length es)).

(** [is_clickable] (lines 164-171). *)
Definition is_clickable (e : elem) : M bool :=
  en <- drv_pure "is_enabled" (CIsEnabled e) (wd_is_enabled e) ;;
  if en then drv_pure "is_displayed" (CIsDisplayed e) (wd_is_displayed e) else ret false.

(** ** Lemmas on handler updates *)

Lemma upd_upd h w w' cs cs' : upd (upd h w cs) w' cs' = upd h w' (cs ++ cs')%list.
Proof. unfold upd; simpl. rewrite app_assoc. reflexivity. Qed.

Lemma upd_nil h w : driver h = Some w -> upd h w [] = h.
Proof. destruct h; simpl. intros ->. unfold upd; simpl. rewrite app_nil_r. reflexivity. Qed.

Lemma driver_upd h w cs : driver (upd h w cs) = Some w.
Proof. reflexivity. Qed.

Lemma calls_upd h w cs : calls (upd h w cs) = (calls h ++ cs)%list.
Proof. reflexivity. Qed.

End Handler.

Arguments handler W : clear implicits.

#[export] Hint Rewrite @upd_upd @driver_upd @calls_upd : crawl_rw.

(** ** Properties of the handler methods *)

Section HandlerFacts.
Context {W : Type} `{WebDriver W}.

(** C11: [wait_until_element_visible] returns [True] at once, for every
    locator, timeout and page, without sleeping or touching the
    browser, even before [set_driver]: the [until] lambda returns the
    condition object instead of evaluating it. *)
Theorem wait_until_element_visible_always_true (l : locator) (delay : nat) (h : handler W) :
  wait_until_element_visible l delay h = (h, Ok true).
Proof.
  unfold wait_until_element_visible, until.
  destruct (delay * 1000 / 500); reflexivity.
Qed.

(** C21: [get_url] absorbs every selenium exception of [driver.get]
    (navigation failures are not fatal): what escapes is the
    [AttributeError] of a handler whose driver was never set, or an
    exception outside selenium's hierarchy. *)
Theorem get_url_errors (url : string) (h : handler W) e :
  snd (get_url url h) = Err e ->
  (driver h = None /\ e = AttributeError "get") \/ is_webdriver_exception e = false.
Proof.
  unfold get_url, try_except, drv. cbn [bind Monad_st]. unfold st_bind.
  destruct (driver h) as [w|] eqn:Hd.
  - destruct (wd_get url w) as [w' [[]|e']]; simpl; intros Heq.
    + unfold sleep in Heq. simpl in Heq. discriminate.
    + destruct (is_webdriver_exception e') eqn:He; simpl in Heq; [discriminate|].
      injection Heq as <-. auto.
  - simpl. intros Heq. injection Heq as <-. auto.
Qed.

(** C22: A selenium exception of [driver.get] is printed, the 0.1 s
    pause after the navigation is skipped, and the crawl goes on with
    the browser where the failed navigation left it. *)
Theorem get_url_prints url (h : handler W) w w' e :
  driver h = Some w -> wd_get url w = (w', Err e) -> is_webdriver_exception e = true ->
  get_url url h = (upd h w' [CGet url; CPrint e], Ok tt).
Proof.
  intros Hd Hg He. unfold get_url, try_except, drv. cbn [bind Monad_st]. unfold st_bind.
  rewrite Hd, Hg. simpl. rewrite He. unfold print_exn, set_calls, set_world, upd. cbn.
  rewrite <- app_assoc. reflexivity.
Qed.

(** The re-raise of [get_element] (lines 92-95) on the outcome of
    [find_element]. *)
Definition get_element_reraise (r : result elem) : result elem :=
  match r with
  | Err (NoSuchElementException _) => Err (NoSuchElementException "Element not found.")
  | Err (TimeoutException _) => Err (TimeoutException "Takes too long (>5s) to locate element.")
  | r => r
  end.

(** C12: [get_element] is [find_element] with its two exceptions renamed:
    [NoSuchElementException] becomes "Element not found.", a
    [TimeoutException] raised by the lookup becomes the "(>5s)" message,
    every other outcome (the element, [AttributeError] before
    [set_driver], any other selenium exception) passes unchanged, and
    the handler is the one [find_element] leaves: the wait before it
    never raises and changes nothing. *)
Theorem get_element_spec (l : locator) (h : handler W) :
  get_element l h = (fst (find_element l h), get_element_reraise (snd (find_element l h))).
Proof.
  unfold get_element, try_except, wait_until_element_visible, until. cbn.
  unfold st_bind. destruct (find_element l h) as [h' [e|[]]]; reflexivity.
Qed.

(** C27: On a live driver [get_element_click] pauses 0.1 s, looks the
    element up once and clicks it.  A failed lookup raises the renamed
    exception of [get_element] and no click is made; the click itself
    runs outside the [try], so its exceptions (an intercepted click
    among them) escape unchanged. *)
Theorem get_element_click_spec (l : locator) (h : handler W) w :
  driver h = Some w ->
  get_element_click l h =
  match wd_find_element l (wd_sleep 100 w) with
  | Ok e => let (w', r) := wd_click e (wd_sleep 100 w) in
            (upd h w' [CSleep 100; CFindElement l; CClick e], r)
  | Err x => (upd h (wd_sleep 100 w) [CSleep 100; CFindElement l],
             Err (match x with
                  | NoSuchElementException _ => NoSuchElementException "Element not found."
                  | TimeoutException _ => TimeoutException "Takes too long (>5s) to locate element."
                  | x => x
                  end))
  end.
Proof.
  intros Hd. unfold get_element_click, get_element, try_except, wait_until_element_visible, until,
    sleep, find_element, click, drv. cbn. unfold st_bind. rewrite Hd. cbn.
  destruct (wd_find_element l (wd_sleep 100 w)) as [e|[]]; cbn;
    [destruct (wd_click e (wd_sleep 100 w))|..]; unfold set_world; rewrite !upd_upd; reflexivity.
Qed.

(** [until_loop n] sleeps at most [n + 1] times and nothing else; it
    returns a truthy value or, after exactly [n + 1] sleeps, a
    [TimeoutException]. *)
Lemma until_loop_sleeps n method : forall (h : handler W) w,
  driver h = Some w ->
  exists k, k <= S n /\ calls (fst (until_loop n method h)) = (calls h ++ repeat (CSleep 500) k)%list /\
    match snd (until_loop n method h) with
    | Ok v => truthy v = true
    | Err e => e = TimeoutException "" /\ k = S n
    end.
Proof.
  induction n as [|n IH]; intros h w Hd; cbn [until_loop bind Monad_st]; unfold st_bind, get_st;
    destruct (truthy (method (driver h))) eqn:Ht; cbn;
    try (exists 0; rewrite app_nil_r; split; [lia | split; [reflexivity | exact Ht]]);
    unfold sleep; rewrite Hd; cbn.
  - exists 1. auto.
  - destruct (IH (set_world h (wd_sleep 500 w) (CSleep 500)) (wd_sleep 500 w) eq_refl)
      as (k & Hk & Hc & Hr).
    exists (S k). rewrite Hc. cbn. rewrite <- app_assoc. split; [lia | split; [reflexivity|]].
    destruct (snd _) as [v|e]; [exact Hr | destruct Hr as [-> ->]; auto].
Qed.

(** [WebDriverWait(driver, timeout).until(method)] on a live driver
    only sleeps, in 0.5 s polls, and sleeps at most [timeout + 0.5 s] in
    total; it returns a truthy value of [method], or raises
    [TimeoutException] once the time slept exceeds the timeout. *)
Lemma until_wait_bound (timeout_ms : nat) method (h : handler W) w :
  driver h = Some w ->
  exists k, calls (fst (until timeout_ms method h)) = (calls h ++ repeat (CSleep 500) k)%list /\
    k * 500 <= timeout_ms + 500 /\
    match snd (until timeout_ms method h) with
    | Ok v => truthy v = true
    | Err e => e = TimeoutException "" /\ timeout_ms < k * 500
    end.
Proof.
  intros Hd. unfold until.
  destruct (until_loop_sleeps (timeout_ms / 500) method h w Hd) as (k & Hk & Hc & Hr).
  pose proof (Nat.div_mod timeout_ms 500 ltac:(lia)).
  pose proof (Nat.mod_upper_bound timeout_ms 500 ltac:(lia)).
  exists k. split; [exact Hc | split; [nia|]].
  destruct (snd _) as [v|e]; [exact Hr | destruct Hr as [-> ->]; split; [reflexivity | nia]].
Qed.

End HandlerFacts.


(** ** A scripted page for concrete runs

    The world is the number of scroll-to-bottom calls made so far; the
    page height after [k] of them is the [k]-th entry of [hs] (the last
    entry once the list is exhausted).  Nothing else on the page reacts. *)
Definition list_height (hs : list Z) (k : nat) : Z := nth k hs (last hs 0%Z).

Definition list_page (hs : list Z) : WebDriver nat := {|
  wd_launch := fun _ _ => Ok 0;
  wd_get := fun _ w => (w, Ok tt);
  wd_current_url := fun _ => "";
  wd_page_source := fun _ => "";
  wd_find_element := fun _ _ => Err (NoSuchElementException "");
  wd_find_elements := fun _ _ => [];
  wd_click := fun _ w => (w, Ok tt);
  wd_execute_script := fun js _ w =>
    match js with
    | JsScrollToBottom => (S w, Ok PyNone)
    | JsScrollHeight => (w, Ok (PyInt (list_height hs w)))
    | _ => (w, Ok PyNone)
    end;
  wd_delete_all_cookies := fun w => (w, Ok tt);
  wd_close := fun w => w;
  wd_text := fun _ _ => "";
  wd_tag_name := fun _ _ => "";
  wd_is_enabled := fun _ _ => true;
  wd_is_displayed := fun _ _ => true;
  wd_select_by_value := fun _ _ w => (w, Ok tt);
  wd_sleep := fun _ w => w |}.

Definition lazy_start : handler nat :=
  {| driver := Some 0; headless := true; resource_data := []; path_to_driver := "";
     calls := [] |}.

Example get_url_errors_witness :
  snd (@get_url nat (list_page []) "https://synculario.odoo.com/academyjobs"
         {| driver := None; headless := true; resource_data := []; path_to_driver := "";
            calls := [] |}) = Err (AttributeError "get") /\
  ((@driver nat {| driver := None; headless := true; resource_data := []; path_to_driver := "";
                   calls := [] |} = None /\ AttributeError "get" = AttributeError "get")
   \/ is_webdriver_exception (AttributeError "get") = false).
Proof.
  split; [reflexivity|].
  apply (@get_url_errors nat (list_page []) "https://synculario.odoo.com/academyjobs").
  reflexivity.
Defined.

(** A page whose navigation fails with a selenium error. *)
Definition offline_page : WebDriver nat := {|
  wd_launch := fun _ _ => Ok 0;
  wd_get := fun _ w => (w, Err (WebDriverException "net::ERR_NAME_NOT_RESOLVED"));
  wd_current_url := fun _ => "";
  wd_page_source := fun _ => "";
  wd_find_element := fun _ _ => Err (NoSuchElementException "");
  wd_find_elements := fun _ _ => [];
  wd_click := fun _ w => (w, Ok tt);
  wd_execute_script := fun _ _ w => (w, Ok PyNone);
  wd_delete_all_cookies := fun w => (w, Ok tt);
  wd_close := fun w => w;
  wd_text := fun _ _ => "";
  wd_tag_name := fun _ _ => "";
  wd_is_enabled := fun _ _ => false;
  wd_is_displayed := fun _ _ => true;
  wd_select_by_value := fun _ _ w => (w, Ok tt);
  wd_sleep := fun _ w => w |}.

Example get_url_prints_witness :
  @get_url nat offline_page "https://synculario.odoo.com/academyjobs" lazy_start =
  (@upd nat lazy_start 0 [CGet "https://synculario.odoo.com/academyjobs";
                          CPrint (WebDriverException "net::ERR_NAME_NOT_RESOLVED")], Ok tt).
Proof. exact (@get_url_prints nat offline_page _ lazy_start 0 0 _ eq_refl eq_refl eq_refl). Defined.

(** A page with one pagination item, present but hidden. *)
Definition hidden_item_page : WebDriver nat := {|
  wd_launch := fun _ _ => Ok 0;
  wd_get := fun _ w => (w, Ok tt);
  wd_current_url := fun _ => "";
  wd_page_source := fun _ => "";
  wd_find_element := fun _ _ => Ok 5;
  wd_find_elements := fun _ _ => [5];
  wd_click := fun _ w => (w, Ok tt);
  wd_execute_script := fun _ _ w => (w, Ok PyNone);
  wd_delete_all_cookies := fun w => (w, Ok tt);
  wd_close := fun w => w;
  wd_text := fun _ _ => "";
  wd_tag_name := fun _ _ => "li";
  wd_is_enabled := fun _ _ => true;
  wd_is_displayed := fun _ _ => false;
  wd_select_by_value := fun _ _ w => (w, Ok tt);
  wd_sleep := fun _ w => w |}.

(** [is_displayed] only counts the matching elements: a present but
    hidden element is reported as displayed, against its docstring. *)
Example is_displayed_hidden_element :
  @wd_is_displayed nat hidden_item_page 5 0 = false /\
  snd (@is_displayed nat hidden_item_page (css ".page-item") lazy_start) = Ok true.
Proof. split; reflexivity. Qed.

(** [Select] refuses an element that is not a [select]. *)
Example select_not_a_select :
  snd (@select nat hidden_item_page 5 "prague" lazy_start) =
  Err (UnexpectedTagNameException "Select only works on <select> elements, not on li").
Proof. reflexivity. Qed.

Example get_element_click_spec_witness :
  @get_element_click nat offline_page (css "#apply") lazy_start =
  (@upd nat lazy_start 0 [CSleep 100; CFindElement (css "#apply")],
   Err (NoSuchElementException "Element not found.")).
Proof. exact (@get_element_click_spec nat offline_page (css "#apply") lazy_start 0 eq_refl). Defined.

End Browser.
