(* ===== verification/Script.v ===== *)
(** * The JavaScript text of [execute_script] calls

    [Browser.script] names the snippets the handler runs.  This file
    writes out their source text ([script_text]); [paste] (lines
    133-134) builds its text with [str.format], pasting the element id
    into a single-quoted JavaScript string and the data into a template
    literal without escaping either.  [set_value_parts] reads such a
    text the way a JavaScript lexer does: the [document.getElementById(']
    prefix, a single-quoted literal, [).value = `], a template literal,
    and whatever follows it.  Escape sequences and [${...}]
    substitutions are not read ([None]): a text that needs them is not
    the plain assignment the code means.  The theorem shows that the
    assignment holds exactly [data] when neither argument contains a
    delimiter, and the example after it shows a backtick in [data]
    ending the literal early, so the rest of [data] runs as code. *)

From Stdlib Require Import String Ascii List Bool Lia.
From S2P Require Import Prelude Browser.
Import ListNotations.
Local Open Scope string_scope.

Module Script.
Import Browser.

(** The source text of each snippet.  [solve_lazy_loading] (line 143)
    writes the scroll with a space after the comma, the same statement. *)
Definition script_text (js : script) : string :=
  match js with
  | JsClick => "arguments[0].click();"
  | JsScrollIntoView => "arguments[0].scrollIntoView(true);"
  | JsScrollToBottom => "window.scrollTo(0,document.body.scrollHeight);"
  | JsScrollHeight => "return document.body.scrollHeight"
  | JsSetValue id data => "document.getElementById('" ++ id ++ "').value = `" ++ data ++ "`"
  end.

(** ** Reading the text as JavaScript *)

Definition backslash : ascii := ascii_of_nat 92.

Definition is_line_terminator (c : ascii) : bool :=
  Ascii.eqb c (ascii_of_nat 10) || Ascii.eqb c (ascii_of_nat 13).

(** The body of a single-quoted string literal up to its closing quote,
    and the text after it. *)
Fixpoint sq_literal (s : string) : option (string * string) :=
  match s with
  | EmptyString => None
  | String c s' =>
      if Ascii.eqb c "'" then Some ("", s')
      else if Ascii.eqb c backslash || is_line_terminator c then None
      else option_map (fun '(v, rest) => (String c v, rest)) (sq_literal s')
  end.

(** [{] opens a substitution after [$]. *)
Definition starts_brace (s : string) : bool :=
  match s with String c _ => Ascii.eqb c "{" | EmptyString => false end.

(** The body of a template literal up to its closing backtick, and the
    text after it. *)
Fixpoint template_literal (s : string) : option (string * string) :=
  match s with
  | EmptyString => None
  | String c s' =>
      if Ascii.eqb c "`" then Some ("", s')
      else if Ascii.eqb c backslash then None
      else if Ascii.eqb c "$" && starts_brace s' then None
      else option_map (fun '(v, rest) => (String c v, rest)) (template_literal s')
  end.

Fixpoint strip_prefix (p s : string) : option string :=
  match p, s with
  | EmptyString, _ => Some s
  | String a p', String b s' => if Ascii.eqb a b then strip_prefix p' s' else None
  | String _ _, EmptyString => None
  end.

(** [document.getElementById('<id>').value = `<value>`<rest>]. *)
Definition set_value_parts (js : string) : option (string * string * string) :=
  match strip_prefix "document.getElementById('" js with
  | None => None
  | Some r1 =>
      match sq_literal r1 with
      | None => None
      | Some (id, r2) =>
          match strip_prefix ").value = `" r2 with
          | None => None
          | Some r3 =>
              match template_literal r3 with
              | None => None
              | Some (v, rest) => Some (id, v, rest)
              end
          end
      end
  end.

(** Texts a single-quoted literal holds as they are. *)
Definition sq_safe (s : string) : bool :=
  forallb (fun c => negb (Ascii.eqb c "'" || Ascii.eqb c backslash || is_line_terminator c))
    (list_ascii_of_string s).

(** Texts a template literal holds as they are. *)
Fixpoint template_safe (s : string) : bool :=
  match s with
  | EmptyString => true
  | String c s' =>
      negb (Ascii.eqb c "`" || Ascii.eqb c backslash || (Ascii.eqb c "$" && starts_brace s'))
      && template_safe s'
  end.

(** ** Lemmas *)

Lemma strip_prefix_app p s : strip_prefix p (p ++ s) = Some s.
Proof. induction p as [|a p IH]; simpl; [reflexivity|]. rewrite Ascii.eqb_refl. exact IH. Qed.

Lemma sq_literal_app v rest :
  sq_safe v = true -> sq_literal (v ++ String "'" rest) = Some (v, rest).
Proof.
  unfold sq_safe. induction v as [|c v IH]; simpl; [reflexivity|].
  intros Hs. apply andb_prop in Hs as [Hc Hs].
  destruct (Ascii.eqb c "'"), (Ascii.eqb c backslash), (is_line_terminator c); try discriminate.
  simpl. rewrite IH by exact Hs. reflexivity.
Qed.

Lemma starts_brace_app v rest : starts_brace (v ++ String "`" rest) = starts_brace v.
Proof. destruct v; reflexivity. Qed.

Lemma template_literal_app v rest :
  template_safe v = true -> template_literal (v ++ String "`" rest) = Some (v, rest).
Proof.
  induction v as [|c v IH]; intros Hs; [reflexivity|].
  cbn [template_safe] in Hs. apply andb_prop in Hs as [Hc Hs].
  cbn [append template_literal]. rewrite starts_brace_app, IH by exact Hs.
  destruct (Ascii.eqb c "`"), (Ascii.eqb c backslash), (Ascii.eqb c "$" && starts_brace v);
    try discriminate Hc; reflexivity.
Qed.

(** ** Theorems *)

(** C28: [paste(element, data)] runs the assignment of exactly [data] to
    the [value] of the element with id [element], with nothing after it,
    whenever the id holds no quote, backslash or line break and the data
    no backtick, backslash or [${]: the code does not escape them. *)
Theorem paste_script_roundtrip id data :
  sq_safe id = true -> template_safe data = true ->
  set_value_parts (script_text (JsSetValue id data)) = Some (id, data, "").
Proof.
  intros Hid Hd. unfold set_value_parts, script_text.
  rewrite strip_prefix_app. cbn [append]. rewrite sq_literal_app by exact Hid.
  cbn -[template_literal]. rewrite template_literal_app by exact Hd. reflexivity.
Qed.

Example paste_script_roundtrip_witness :
  set_value_parts (script_text (JsSetValue "search" "Prague, full-time")) =
  Some ("search", "Prague, full-time", "").
Proof. exact (paste_script_roundtrip "search" "Prague, full-time" eq_refl eq_refl). Defined.

(** A backtick in [data] closes the template literal: the element gets
    the empty string and the rest of [data] runs as JavaScript. *)
Example paste_backtick_runs_code :
  set_value_parts (script_text (JsSetValue "search" "`;alert(1);`")) =
  Some ("search", "", ";alert(1);``").
Proof. vm_compute. reflexivity. Qed.

End Script.
