(* ===== verification/LazyLoad.v ===== *)
(** * LazyLoadStabilizer: [solve_lazy_loading] ([browser_handler.py] lines 140-153)

    Measure [document.body.scrollHeight], then repeat { scroll to the
    bottom; sleep 0.5 s; measure } until two consecutive measurements
    are equal ([==] on the Python values [execute_script] returns).
    [lazy_loop] is the [while True] loop with a fuel argument ([Ok None]
    when the fuel runs out).  In the section [LazyLoad] the page answers
    the height script without changing and scrolling moves it along
    [scrolled]; the theorems give the exact number of cycles when the
    heights repeat and show divergence on a page that keeps growing. *)

From Stdlib Require Import String Ascii List Bool Arith ZArith Lia.
From S2P Require Import Prelude Browser.
Import ListNotations.
Local Open Scope string_scope.

Module LazyLoad.
Import Browser.

Section LazyLoop.
Context {W : Type} `{WebDriver W}.

Abbreviation M := (st (handler W)).

(** [solve_lazy_loading] (lines 140-153): the [while True] loop with
    [fuel] iterations; [Ok None] when the fuel runs out. *)
Fixpoint lazy_loop (fuel : nat) (lastHeight : pyval) : M (option unit) :=
  match fuel with
  | O => ret None
  | S f =>
      execute_script JsScrollToBottom [] ;;;
      sleep 500 ;;;
      newHeight <- execute_script JsScrollHeight [] ;;
      if pyval_eqb newHeight lastHeight then ret (Some tt)
      else lazy_loop f newHeight
  end.

Definition solve_lazy_loading (fuel : nat) : M (option unit) :=
  lastHeight <- execute_script JsScrollHeight [] ;; lazy_loop fuel lastHeight.

End LazyLoop.

(** ** LazyLoadStabilizer: [solve_lazy_loading] *)

(** The calls of one loop iteration: scroll to the bottom, sleep 0.5 s,
    measure. *)
Definition cycle_calls : list call :=
  [CScript JsScrollToBottom; CSleep 500; CScript JsScrollHeight].

Section Stabilize.
Context {W : Type} `{WebDriver W}.

(** The page answers [document.body.scrollHeight] with [height w]
    without changing, and scrolling to the bottom moves it to
    [scrolled w]; [adv] is one scroll followed by the 0.5 s pause. *)
Variables (height : W -> Z) (scrolled : W -> W).
Hypothesis height_script :
  forall w, wd_execute_script JsScrollHeight [] w = (w, Ok (PyInt (height w))).
Hypothesis bottom_script :
  forall w, wd_execute_script JsScrollToBottom [] w = (scrolled w, Ok PyNone).

Definition adv (w : W) : W := wd_sleep 500 (scrolled w).

Lemma lazy_loop_step f (h : handler W) w :
  driver h = Some w ->
  lazy_loop (S f) (PyInt (height w)) h =
  if Z.eqb (height (adv w)) (height w)
  then (upd h (adv w) cycle_calls, Ok (Some tt))
  else lazy_loop f (PyInt (height (adv w))) (upd h (adv w) cycle_calls).
Proof.
  intros Hd. cbn [lazy_loop bind Monad_st]. unfold st_bind, execute_script, drv, sleep.
  rewrite Hd, bottom_script. cbn. rewrite height_script. cbn.
  unfold set_world. rewrite !upd_upd. fold (adv w).
  destruct (Z.eqb (height (adv w)) (height w)); reflexivity.
Qed.

Lemma lazy_loop_ends n : forall fuel (h : handler W) w,
  driver h = Some w -> n < fuel ->
  (forall k, k < n -> height (Nat.iter (S k) adv w) <> height (Nat.iter k adv w)) ->
  height (Nat.iter (S n) adv w) = height (Nat.iter n adv w) ->
  lazy_loop fuel (PyInt (height w)) h =
  (upd h (Nat.iter (S n) adv w) (concat (repeat cycle_calls (S n))), Ok (Some tt)).
Proof.
  induction n as [|n IH]; intros fuel h w Hd Hf Hne Heq;
    (destruct fuel as [|f]; [lia|]); rewrite lazy_loop_step by exact Hd.
  - simpl in Heq. rewrite Heq, Z.eqb_refl. reflexivity.
  - assert (Hk0 := Hne 0 ltac:(lia)). simpl in Hk0.
    apply Z.eqb_neq in Hk0. rewrite Hk0.
    rewrite (IH f _ (adv w)); [| reflexivity | lia | |].
    + rewrite upd_upd, <- Nat.iter_succ_r. reflexivity.
    + intros k Hk. rewrite <- !Nat.iter_succ_r. apply Hne. lia.
    + rewrite <- !Nat.iter_succ_r. exact Heq.
Qed.

Lemma lazy_loop_diverges fuel : forall (h : handler W) w,
  driver h = Some w ->
  (forall k, height (Nat.iter (S k) adv w) <> height (Nat.iter k adv w)) ->
  lazy_loop fuel (PyInt (height w)) h =
  (upd h (Nat.iter fuel adv w) (concat (repeat cycle_calls fuel)), Ok None).
Proof.
  induction fuel as [|f IH]; intros h w Hd Hne.
  - simpl. rewrite upd_nil by exact Hd. reflexivity.
  - rewrite lazy_loop_step by exact Hd.
    assert (Hk0 := Hne 0). simpl in Hk0. apply Z.eqb_neq in Hk0. rewrite Hk0.
    rewrite (IH _ (adv w)); [| reflexivity |].
    + rewrite upd_upd, <- Nat.iter_succ_r. reflexivity.
    + intros k. rewrite <- !Nat.iter_succ_r. apply Hne.
Qed.

Lemma solve_lazy_loading_unfold fuel (h : handler W) w :
  driver h = Some w ->
  solve_lazy_loading fuel h =
  lazy_loop fuel (PyInt (height w)) (upd h w [CScript JsScrollHeight]).
Proof.
  intros Hd. unfold solve_lazy_loading, execute_script, drv. cbn [bind Monad_st].
  unfold st_bind. rewrite Hd, height_script. reflexivity.
Qed.

(** C14: When the measured heights [h_0, h_1, ...] (after [k] scroll
    cycles) first repeat at cycle [n + 1] ([h_(n+1) = h_n] and no earlier
    [h_(k+1) = h_k]), [solve_lazy_loading] stops after exactly [n + 1]
    scroll-sleep-measure cycles, in the page reached by them, with any
    fuel above [n]. *)
Theorem solve_lazy_loading_terminates n fuel (h : handler W) w :
  driver h = Some w -> n < fuel ->
  (forall k, k < n -> height (Nat.iter (S k) adv w) <> height (Nat.iter k adv w)) ->
  height (Nat.iter (S n) adv w) = height (Nat.iter n adv w) ->
  solve_lazy_loading fuel h =
  (upd h (Nat.iter (S n) adv w)
     (CScript JsScrollHeight :: concat (repeat cycle_calls (S n))), Ok (Some tt)).
Proof.
  intros Hd Hf Hne Heq. rewrite solve_lazy_loading_unfold with (w := w) by exact Hd.
  rewrite lazy_loop_ends with (n := n) by (reflexivity || assumption).
  rewrite upd_upd. reflexivity.
Qed.

(** C15: On a page whose height grows at every cycle the loop never
    stops: whatever the fuel, it is exhausted, after that many cycles. *)
Theorem solve_lazy_loading_diverges fuel (h : handler W) w :
  driver h = Some w ->
  (forall k, height (Nat.iter (S k) adv w) <> height (Nat.iter k adv w)) ->
  solve_lazy_loading fuel h =
  (upd h (Nat.iter fuel adv w) (CScript JsScrollHeight :: concat (repeat cycle_calls fuel)),
   Ok None).
Proof.
  intros Hd Hne. rewrite solve_lazy_loading_unfold with (w := w) by exact Hd.
  rewrite lazy_loop_diverges by (reflexivity || assumption).
  rewrite upd_upd. reflexivity.
Qed.

End Stabilize.

(** The heights [100, 250, 250] of the specification: two scroll cycles,
    ending at height 250. *)
Example solve_lazy_loading_witness :
  @solve_lazy_loading nat (list_page [100; 250; 250]%Z) 5 lazy_start =
  (@upd nat lazy_start 2 (CScript JsScrollHeight :: concat (repeat cycle_calls 2)), Ok (Some tt))
  /\ list_height [100; 250; 250]%Z 2 = 250%Z.
Proof.
  split; [|reflexivity].
  refine (@solve_lazy_loading_terminates nat (list_page [100; 250; 250]%Z)
           (list_height [100; 250; 250]%Z) S _ _ 1 5 lazy_start 0 _ _ _ _);
    try reflexivity.
  - lia.
  - intros k Hk. destruct k as [|k]; [discriminate | lia].
Defined.

(** A page that grows by 100 at every cycle never stabilises. *)
Definition growing_page : WebDriver nat := {|
  wd_launch := fun _ _ => Ok 0;
  wd_get := fun _ w => (w, Ok tt);
  wd_current_url := fun _ => "";
  wd_page_source := fun _ => "";
  wd_find_element := fun _ _ => Err (NoSuchElementException "");
  wd_find_elements := fun _ _ => [];
  wd_click := fun _ w => (w, Ok tt);
  wd_execute_script := fun js _ w =>
    match js with
    | JsScrollToBottom => (S w, Ok PyNone)
    | JsScrollHeight => (w, Ok (PyInt (Z.of_nat (100 * S w))))
    | _ => (w, Ok PyNone)
    end;
  wd_delete_all_cookies := fun w => (w, Ok tt);
  wd_close := fun w => w;
  wd_text := fun _ _ => "";
  wd_tag_name := fun _ _ => ""%string;
  wd_is_enabled := fun _ _ => true;
  wd_is_displayed := fun _ _ => true;
  wd_select_by_value := fun _ _ w => (w, Ok tt);
  wd_sleep := fun _ w => w |}.

Lemma iter_S_nat k : Nat.iter k S 0 = k.
Proof. induction k as [|k IH]; [reflexivity | simpl; rewrite IH; reflexivity]. Qed.

Example solve_lazy_loading_diverges_witness :
  @solve_lazy_loading nat growing_page 7 lazy_start =
  (@upd nat lazy_start 7 (CScript JsScrollHeight :: concat (repeat cycle_calls 7)), Ok None).
Proof.
  refine (@solve_lazy_loading_diverges nat growing_page (fun w => Z.of_nat (100 * S w)) S
            _ _ 7 lazy_start 0 _ _); try reflexivity.
  intros k. change (@adv nat growing_page S) with S. rewrite !iter_S_nat. lia.
Defined.

End LazyLoad.
