(* ===== verification/LazyMachine.v ===== *)
(** * The lazy-loading loop as a state machine

    [solve_lazy_loading] ([browser_handler.py] lines 140-153) as the
    stabilisation loop of the design: measure the height once (Start),
    then repeat Scroll (line 147), Pause (line 148) and Measure (lines
    149-152) until two consecutive heights are equal (Stable); an
    exception of the driver ends in [LFailed].  The phases carry
    [lastHeight].  The machine is an instance of [Machine.v]: [lazy_laws]
    discharges its laws, and the theorems relate [solve_lazy_loading] to
    runs of the machine in both directions and show that the stabiliser
    only scrolls, pauses and measures.  That a page that keeps growing
    never stabilises is shown on the code itself ([LazyLoad]). *)

From Stdlib Require Import String List Bool Arith ZArith Lia.
From S2P Require Import Prelude Machine Browser LazyLoad.
Import ListNotations.

Module LazyMachine.
Import Browser LazyLoad.

Inductive lphase : Type :=
| Start
| Scroll (lastHeight : pyval)
| Pause (lastHeight : pyval)
| Measure (lastHeight : pyval)
| Stable
| LFailed (e : exn).

Section Machine.
Context {W : Type} `{WebDriver W}.

Abbreviation M := (st (handler W)).
Definition lconfig : Type := (lphase * handler W)%type.

(** The operations of each phase, in the order of lines 142-152. *)
Definition lact (p : lphase) : option (M lphase) :=
  match p with
  | Start => Some (lastHeight <- execute_script JsScrollHeight [] ;; ret (Scroll lastHeight))
  | Scroll lh => Some (execute_script JsScrollToBottom [] ;;; ret (Pause lh))
  | Pause lh => Some (sleep 500 ;;; ret (Measure lh))
  | Measure lh =>
      Some (newHeight <- execute_script JsScrollHeight [] ;;
            ret (if pyval_eqb newHeight lh then Stable else Scroll newHeight))
  | Stable | LFailed _ => None
  end.

Definition lstep : lconfig -> lconfig -> Prop := Machine.mstep lact LFailed.
Definition lrun_fn : nat -> lconfig -> lconfig := Machine.mrun_fn lact LFailed.

(** The code left to run from each phase, [f] being the fuel of the
    loop. *)
Definition lresume (f : nat) (p : lphase) : M (option unit) :=
  match p with
  | Start => solve_lazy_loading f
  | Scroll lh => lazy_loop f lh
  | Pause lh =>
      sleep 500 ;;;
      newHeight <- execute_script JsScrollHeight [] ;;
      if pyval_eqb newHeight lh then ret (Some tt) else lazy_loop f newHeight
  | Measure lh =>
      newHeight <- execute_script JsScrollHeight [] ;;
      if pyval_eqb newHeight lh then ret (Some tt) else lazy_loop f newHeight
  | Stable => ret (Some tt)
  | LFailed e => raise e
  end.

Definition lcost (p : lphase) : nat := match p with Scroll _ => 1 | _ => 0 end.
Definition lrank (p : lphase) : nat :=
  match p with Start => 1 | Pause _ => 2 | Measure _ => 1 | _ => 0 end.

End Machine.

(** The result [solve_lazy_loading] returns when the machine stops in [p]. *)
Definition loutcome (p : lphase) : result (option unit) :=
  match p with Stable => Ok (Some tt) | LFailed e => Err e | _ => Ok None end.

(** The calls the stabiliser may make. *)
Definition stabiliser_call (c : call) : bool :=
  match c with
  | CScript JsScrollToBottom | CScript JsScrollHeight | CSleep 500 => true
  | _ => false
  end.

(** ** Lemmas *)

Section LazyFacts.
Context {W : Type} `{WebDriver W}.

Ltac unfold_lazy :=
  cbn [bind ret Monad_st lresume lazy_loop solve_lazy_loading lact] in *;
  unfold st_bind, lift, raise in *.

Lemma lazy_laws : Machine.loop_laws lact LFailed (lresume (W := W)) lcost lrank 3.
Proof.
  split.
  1-2: intros p m h h' ? f Ha Hm; destruct p; cbn [lact] in Ha; try discriminate Ha;
    injection Ha as <-; unfold lcost; cbn [Nat.add]; Machine.resume_by unfold_lazy.
  - reflexivity.
  - reflexivity.
  - intros p f h Ha. destruct p; try discriminate Ha; reflexivity.
  - intros q h [Ha|Hc]; destruct q; try discriminate; reflexivity.
  - intros p. destruct p; simpl; lia.
  - intros p. destruct p; simpl; lia.
  - intros p m h h' p' Ha Hm Hc. destruct p; cbn [lact] in Ha; try discriminate; injection Ha as <-;
      unfold_lazy; st_case_hyps; simpl; lia.
Qed.

Definition lterminal (p : lphase) : bool :=
  match p with Stable | LFailed _ => true | _ => false end.

(** What a run of [solve_lazy_loading] says about the machine. *)
Definition lreaches (c : lconfig (W := W)) (h' : handler W) (r : result (option unit)) : Prop :=
  match r with
  | Ok (Some _) => star lstep c (Stable, h')
  | Ok None => exists lh, star lstep c (Scroll lh, h')
  | Err e => star lstep c (LFailed e, h')
  end.

(** Every phase appends only scrolls, 0.5 s pauses and measurements. *)
Lemma lact_calls p m (h : handler W) :
  lact p = Some m ->
  exists cs, calls (fst (m h)) = calls h ++ cs /\ forallb stabiliser_call cs = true.
Proof.
  intros Ha. destruct p; cbn [lact] in Ha; try discriminate Ha; injection Ha as <-;
    unfold_lazy; unfold execute_script, drv, sleep, set_world; destruct (driver h) as [w|];
    try (destruct (wd_execute_script _ _ w) as [w' [v|e]]); cbn;
    first [exists []; rewrite app_nil_r; split; reflexivity | eexists; split; reflexivity].
Qed.

Lemma lstep_calls p p' (h h' : handler W) :
  lstep (p, h) (p', h') -> exists cs, calls h' = calls h ++ cs /\ forallb stabiliser_call cs = true.
Proof.
  intros Hs. unfold lstep in Hs. inversion Hs as [p0 h0 m p1 h1 Ha Hm | p0 h0 m e h1 Ha Hm]; subst;
    destruct (lact_calls _ _ h Ha) as (cs & E & F); rewrite Hm in E; eauto.
Qed.

Lemma lstar_calls (c c' : lconfig (W := W)) :
  star lstep c c' ->
  exists cs, calls (snd c') = calls (snd c) ++ cs /\ forallb stabiliser_call cs = true.
Proof.
  induction 1 as [c|[p h] [p1 h1] c' Hs _ (cs2 & E2 & F2)].
  - exists []. rewrite app_nil_r. auto.
  - destruct (lstep_calls _ _ _ _ Hs) as (cs1 & E1 & F1). exists (cs1 ++ cs2).
    simpl in *. rewrite E2, E1, app_assoc, forallb_app, F1, F2. auto.
Qed.

(** ** Theorems *)

(** C16: Soundness of [solve_lazy_loading] with respect to the machine:
    for every browser and fuel, a stabilised page is a run from Start to
    Stable, an escaped exception a run to [LFailed] with it, and an
    exhausted fuel a run to Scroll with the last height measured. *)
Theorem solve_lazy_loading_sound fuel (h : handler W) :
  lreaches (Start, h) (fst (solve_lazy_loading fuel h)) (snd (solve_lazy_loading fuel h)).
Proof.
  destruct (Machine.resume_sound _ _ _ _ _ _ lazy_laws fuel Start h) as (q & Hs & Hq & Hst).
  change (lresume fuel Start h) with (solve_lazy_loading fuel h) in Hs, Hq.
  destruct (solve_lazy_loading fuel h) as [h' r]. cbn [fst snd] in *.
  destruct Hst as [Ha|Hc]; destruct q; try discriminate; injection Hq as <-; simpl; eauto.
Qed.

(** C17: Completeness: a run of the machine from Start that stops in
    Stable or [LFailed] is what [solve_lazy_loading] computes for every
    fuel from some bound on. *)
Theorem solve_lazy_loading_complete (h : handler W) q h' :
  star lstep (Start, h) (q, h') -> lterminal q = true ->
  exists n, forall fuel, n <= fuel -> solve_lazy_loading fuel h = (h', loutcome q).
Proof.
  intros Hs Ht. assert (Ha : lact (W := W) q = None) by (destruct q; try discriminate Ht; reflexivity).
  destruct (Machine.stop_run _ _ _ _ _ _ lazy_laws _ _ _ _ Hs Ha) as [n Hn].
  exists n. intros fuel Hf. change (solve_lazy_loading fuel h) with (lresume fuel Start h).
  rewrite (Hn fuel Hf). destruct q; try discriminate Ht; reflexivity.
Qed.

(** C18: Invariant of the stabiliser, by rule induction on its runs: it
    only scrolls to the bottom, sleeps 0.5 s and measures the height;
    it never navigates, clicks or closes the browser. *)
Theorem stabiliser_calls_only (h : handler W) q h' :
  star lstep (Start, h) (q, h') ->
  exists cs, calls h' = calls h ++ cs /\ forallb stabiliser_call cs = true.
Proof. apply (lstar_calls (Start, h) (q, h')). Qed.

End LazyFacts.


(** ** Concrete runs *)

(** The heights [100, 250, 250]: seven steps from Start to Stable. *)
Lemma list_page_run :
  star (@lstep nat (list_page [100; 250; 250]%Z)) (Start, lazy_start)
    (Stable, @upd nat lazy_start 2 (CScript JsScrollHeight :: concat (repeat cycle_calls 2))).
Proof.
  replace (Stable, @upd nat lazy_start 2 (CScript JsScrollHeight :: concat (repeat cycle_calls 2)))
    with (@lrun_fn nat (list_page [100; 250; 250]%Z) 7 (Start, lazy_start)) by reflexivity.
  apply Machine.mrun_fn_star.
Qed.

Example solve_lazy_loading_complete_witness :
  star (@lstep nat (list_page [100; 250; 250]%Z)) (Start, lazy_start)
    (Stable, @upd nat lazy_start 2 (CScript JsScrollHeight :: concat (repeat cycle_calls 2))) /\
  lterminal Stable = true /\
  exists n, forall fuel, n <= fuel ->
    @solve_lazy_loading nat (list_page [100; 250; 250]%Z) fuel lazy_start =
    (@upd nat lazy_start 2 (CScript JsScrollHeight :: concat (repeat cycle_calls 2)), Ok (Some tt)).
Proof.
  split; [exact list_page_run | split; [reflexivity|]].
  exact (solve_lazy_loading_complete lazy_start _ _ list_page_run eq_refl).
Defined.

Example stabiliser_calls_only_witness :
  star (@lstep nat (list_page [100; 250; 250]%Z)) (Start, lazy_start)
    (Stable, @upd nat lazy_start 2 (CScript JsScrollHeight :: concat (repeat cycle_calls 2))) /\
  exists cs, calls (@upd nat lazy_start 2 (CScript JsScrollHeight :: concat (repeat cycle_calls 2))) =
    (calls lazy_start ++ cs)%list /\ forallb stabiliser_call cs = true.
Proof.
  split; [exact list_page_run|].
  exact (stabiliser_calls_only (H := list_page [100; 250; 250]%Z) lazy_start _ _ list_page_run).
Defined.

End LazyMachine.
