(* ===== verification/Crawler.v ===== *)
(** * PaginationCrawler: the [while True] loop of [get_synculario_offers]

    [synculario.py] lines 13-33: open the listing, then repeat { sleep
    1 s; find the [.page-item] controls; take the last one
    ([pagination[len(pagination)-1]]); append [page_source]; scroll the
    control into view and click it } until the click raises
    [ElementClickInterceptedException]; then [quit_driver()].
    [crawl_loop] is the loop with a fuel bound ([Ok None] when the fuel
    runs out, i.e. the loop is still running), [crawl] the whole crawl.
    The theorems: the browser is closed exactly once after a normal end
    and never when an exception escapes the loop (the code has no
    [try/finally]); a site with [k] pages yields its [k] page sources in
    order; every crawl returns at most one page per iteration; a page
    without pagination controls raises [IndexError]. *)

From Stdlib Require Import String Ascii List Bool Arith ZArith Lia.
From S2P Require Import Prelude Browser.
Import ListNotations.

Module Crawler.
Import Browser.

Definition link : string := "https://synculario.odoo.com/academyjobs"%string.
Definition pagination_locator : locator := css ".page-item"%string.

(** [pause = 1] *)
Definition pause_ms : nat := 1000.

Definition is_close (c : call) : bool := match c with CClose => true | _ => false end.
Definition closes (cs : list call) : nat := length (filter is_close cs).

Section Crawl.
Context {W : Type} `{WebDriver W}.

Abbreviation M := (st (handler W)).

(** The body of the [try] of lines 27-31: [false] = go on, [true] =
    the click was intercepted ([break]). *)
Definition advance (element : elem) : M bool :=
  try_except (scroll_to_given_element element ;;; click element ;;; ret false)
    (fun e => match e with
              | ElementClickInterceptedException => Some (ret true)
              | _ => None
              end).

(** Lines 22-31. *)
Fixpoint crawl_loop (fuel : nat) (pages : list string) : M (option (list string)) :=
  match fuel with
  | O => ret None
  | S f =>
      sleep pause_ms ;;;
      pagination <- find_elements pagination_locator ;;
      element <- lift (py_getitem pagination (Z.of_nat (length pagination) - 1)) ;;
      src <- page_source ;;
      stop <- advance element ;;
      if stop then ret (Some (pages ++ [src])) else crawl_loop f (pages ++ [src])
  end.

(** Lines 16-33 from the handler built by [BrowserHandler(True)]. *)
Definition crawl (proxy : string) (fuel : nat) : M (option (list string)) :=
  set_driver proxy ;;;
  get_url link ;;;
  r <- crawl_loop fuel [] ;;
  match r with
  | None => ret None
  | Some pages => quit_driver ;;; ret (Some pages)
  end.

(** ** No call but [quit_driver] closes the browser *)

(** [c] only appends calls other than [close] to the log, and keeps a
    live driver live. *)
Definition no_close {A} (c : M A) : Prop :=
  forall h, exists cs, calls (fst (c h)) = calls h ++ cs /\ closes cs = 0 /\
                  (driver h <> None -> driver (fst (c h)) <> None).

Lemma closes_app l1 l2 : closes (l1 ++ l2) = closes l1 + closes l2.
Proof. unfold closes. rewrite filter_app, length_app. reflexivity. Qed.

Lemma no_close_ret {A} (a : A) : no_close (ret a).
Proof. intros h. exists []. rewrite app_nil_r. auto. Qed.

Lemma no_close_lift {A} (r : result A) : no_close (lift r).
Proof. intros h. exists []. rewrite app_nil_r. auto. Qed.

Lemma no_close_bind {A B} (c : M A) (k : A -> M B) :
  no_close c -> (forall a, no_close (k a)) -> no_close (bind c k).
Proof.
  intros Hc Hk h. cbn [bind Monad_st]. unfold st_bind.
  destruct (Hc h) as (cs1 & E1 & Z1 & D1). destruct (c h) as [h1 [a|e]]; simpl in *.
  - destruct (Hk a h1) as (cs2 & E2 & Z2 & D2). exists (cs1 ++ cs2).
    split; [rewrite E2, E1, app_assoc; reflexivity|].
    split; [rewrite closes_app; lia | auto].
  - exists cs1. auto.
Qed.

Lemma no_close_try {A} (c : M A) hd :
  no_close c -> (forall e k, hd e = Some k -> no_close k) -> no_close (try_except c hd).
Proof.
  intros Hc Hk h. unfold try_except.
  destruct (Hc h) as (cs1 & E1 & Z1 & D1). destruct (c h) as [h1 [a|e]] eqn:Ec; simpl in *.
  - exists cs1. auto.
  - destruct (hd e) as [k|] eqn:Ee; simpl; [|exists cs1; auto].
    destruct (Hk e k Ee h1) as (cs2 & E2 & Z2 & D2). exists (cs1 ++ cs2).
    split; [rewrite E2, E1, app_assoc; reflexivity|].
    split; [rewrite closes_app; lia | auto].
Qed.

Lemma no_close_drv {A} name c (f : W -> W * result A) :
  is_close c = false -> no_close (drv name c f).
Proof.
  intros Hc h. unfold drv. destruct (driver h) as [w|].
  - destruct (f w) as [w' r]. exists [c]. unfold closes; simpl. rewrite Hc.
    split; [reflexivity | split; [reflexivity | discriminate]].
  - exists []. rewrite app_nil_r. auto.
Qed.

Lemma no_close_sleep ms : no_close (sleep ms).
Proof.
  intros h. unfold sleep. exists [CSleep ms].
  destruct (driver h); (split; [reflexivity | split; [reflexivity|]]); [discriminate | intros Hd; exfalso; exact (Hd eq_refl)].
Qed.

Lemma no_close_print e : no_close (print_exn e).
Proof. intros h. exists [CPrint e]. split; [reflexivity | split; [reflexivity | exact (fun Hd => Hd)]]. Qed.

Ltac no_close_t :=
  repeat first
    [ apply no_close_bind; [|intros ?]
    | apply no_close_try; [|intros ?e ?k ?Hk]
    | apply no_close_drv; reflexivity
    | apply no_close_sleep | apply no_close_ret | apply no_close_lift | apply no_close_print
    | progress unfold advance, scroll_to_given_element, click, execute_script,
                 find_elements, page_source, drv_pure, get_url in *
    | match goal with
      | Hk : (if ?b then _ else _) = Some _ |- _ =>
          destruct b; [injection Hk as <- | discriminate Hk]
      | Hk : match ?e with _ => _ end = Some _ |- _ =>
          destruct e; try discriminate Hk; injection Hk as <-
      | |- no_close (if ?b then _ else _) => destruct b
      end ].

Lemma no_close_advance e : no_close (advance e).
Proof. no_close_t. Qed.

Lemma no_close_get_url url : no_close (get_url url).
Proof. no_close_t. Qed.

Lemma no_close_crawl_loop fuel pages : no_close (crawl_loop fuel pages).
Proof.
  revert pages. induction fuel as [|f IH]; intros pages; [apply no_close_ret|].
  cbn [crawl_loop].
  apply no_close_bind; [apply no_close_sleep | intros _].
  apply no_close_bind; [apply no_close_drv; reflexivity | intros pg].
  apply no_close_bind; [apply no_close_lift | intros el].
  apply no_close_bind; [apply no_close_drv; reflexivity | intros src].
  apply no_close_bind; [apply no_close_advance | intros [|]]; [apply no_close_ret | apply IH].
Qed.

Lemma no_close_set_driver proxy : no_close (set_driver proxy).
Proof.
  intros h. unfold set_driver, drv, set_world. cbn.
  destruct (wd_launch _ _) as [w|e]; cbn.
  - destruct (wd_delete_all_cookies w) as [w' r]. exists [CLaunch; CDeleteCookies].
    split; [cbn; rewrite <- app_assoc; reflexivity | split; [reflexivity | discriminate]].
  - exists [CLaunch]. split; [reflexivity | split; [reflexivity | exact (fun Hd => Hd)]].
Qed.

(** A successful [set_driver] leaves a live driver. *)
Lemma set_driver_live proxy h : snd (set_driver proxy h) = Ok tt -> driver (fst (set_driver proxy h)) <> None.
Proof.
  unfold set_driver, drv, set_world. cbn.
  destruct (wd_launch _ _) as [w|e]; cbn; [|discriminate].
  destruct (wd_delete_all_cookies w) as [w' r]. intros _. discriminate.
Qed.

Lemma quit_driver_run h w :
  driver h = Some w -> quit_driver h = (upd h (wd_close w) [CClose], Ok tt).
Proof. intros Hd. unfold quit_driver, drv. rewrite Hd. reflexivity. Qed.

(** ** Theorems *)

(** C2: Whatever the browser does, a crawl closes the browser exactly
    once when the loop ended on an intercepted click, and never
    otherwise: when an exception escapes (no [try/finally] around the
    loop) or while the loop is still running. *)
Theorem crawl_close_count proxy fuel (h : handler W) :
  closes (calls (fst (crawl proxy fuel h))) =
  closes (calls h) + match snd (crawl proxy fuel h) with Ok (Some _) => 1 | _ => 0 end.
Proof.
  unfold crawl. cbn [bind Monad_st]. unfold st_bind.
  destruct (no_close_set_driver proxy h) as (cs1 & E1 & Z1 & _).
  pose proof (set_driver_live proxy h) as D1.
  destruct (set_driver proxy h) as [h1 [[]|e]]; simpl in *;
    [specialize (D1 eq_refl) | rewrite E1, closes_app; lia].
  destruct (no_close_get_url link h1) as (cs2 & E2 & Z2 & D2).
  destruct (get_url link h1) as [h2 [[]|e]]; simpl in *;
    [| rewrite E2, E1, !closes_app; lia].
  destruct (no_close_crawl_loop fuel [] h2) as (cs3 & E3 & Z3 & D3).
  destruct (crawl_loop fuel [] h2) as [h3 [[ps|]|e]]; simpl in *;
    [| rewrite E3, E2, E1, !closes_app; lia | rewrite E3, E2, E1, !closes_app; lia].
  destruct (driver h3) as [w3|] eqn:Hd3;
    [| exfalso; apply (D3 (D2 D1)); reflexivity].
  rewrite (quit_driver_run h3 w3 Hd3). cbn [fst snd].
  rewrite calls_upd, E3, E2, E1, !closes_app. change (closes [CClose]) with 1. lia.
Qed.

(** Each iteration of the loop appends exactly one page source. *)
Lemma crawl_loop_pages_bound fuel : forall pages (h : handler W),
  match snd (crawl_loop fuel pages h) with
  | Ok (Some ps) => length pages < length ps <= length pages + fuel
  | _ => True
  end.
Proof.
  induction fuel as [|f IH]; intros pages h; [exact I|].
  cbn [crawl_loop bind Monad_st]. unfold st_bind, lift.
  destruct (sleep pause_ms h) as [h1 [[]|e]]; [|exact I].
  destruct (find_elements pagination_locator h1) as [h2 [pg|e]]; [|exact I].
  destruct (py_getitem pg _) as [el|e]; [|exact I].
  destruct (page_source h2) as [h3 [src|e]]; [|exact I].
  destruct (advance el h3) as [h4 [[|]|e]]; [| |exact I].
  - simpl. rewrite length_app. simpl. lia.
  - specialize (IH (pages ++ [src]) h4). rewrite length_app in IH. simpl in IH.
    destruct (snd (crawl_loop f (pages ++ [src]) h4)) as [[ps|]|e]; [lia | exact I | exact I].
Qed.

(** C13: Whatever the browser, a crawl with [fuel] iterations that ends
    on an intercepted click returns between one and [fuel] page sources:
    every iteration captures exactly one page before it tries to
    advance. *)
Theorem crawl_pages_bound proxy fuel (h : handler W) :
  match snd (crawl proxy fuel h) with
  | Ok (Some ps) => 1 <= length ps <= fuel
  | _ => True
  end.
Proof.
  unfold crawl. cbn [bind Monad_st]. unfold st_bind.
  destruct (set_driver proxy h) as [h1 [[]|e]]; [|exact I].
  destruct (get_url link h1) as [h2 [[]|e]]; [|exact I].
  pose proof (crawl_loop_pages_bound fuel [] h2) as Hb.
  destruct (crawl_loop fuel [] h2) as [h3 [[ps|]|e]]; [|exact I|exact I].
  simpl in Hb. destruct (quit_driver h3) as [h4 [[]|e]]; simpl; [lia | exact I].
Qed.

End Crawl.

(** ** A site with [k] listing pages

    The world is the index of the page shown.  [controls] are the handles
    of the [.page-item] elements; clicking the last of them moves to the
    next page, and on the last page the click is intercepted.  Navigation
    shows the first page. *)
Definition paged_site (srcs : list string) (controls : list elem) : WebDriver nat := {|
  wd_launch := fun _ _ => Ok 0;
  wd_get := fun _ _ => (0, Ok tt);
  wd_current_url := fun _ => link;
  wd_page_source := fun w => nth w srcs ""%string;
  wd_find_element := fun _ _ => Err (NoSuchElementException "");
  wd_find_elements := fun l _ => if String.eqb (value l) ".page-item" then controls else [];
  wd_click := fun e w =>
    if Nat.eqb e (last controls 0)
    then (if Nat.ltb (S w) (length srcs) then (S w, Ok tt)
          else (w, Err ElementClickInterceptedException))
    else (w, Ok tt);
  wd_execute_script := fun _ _ w => (w, Ok PyNone);
  wd_delete_all_cookies := fun w => (w, Ok tt);
  wd_close := fun w => w;
  wd_text := fun _ _ => ""%string;
  wd_tag_name := fun _ _ => ""%string;
  wd_is_enabled := fun _ _ => true;
  wd_is_displayed := fun _ _ => true;
  wd_select_by_value := fun _ _ w => (w, Ok tt);
  wd_sleep := fun _ w => w |}.

(** The driver calls of one loop iteration that clicks [e]. *)
Definition iter_calls (e : elem) : list call :=
  [CSleep pause_ms; CFindElements pagination_locator; CPageSource;
   CScript JsScrollIntoView; CClick e].

(** The calls of [set_driver] and [get_url] on a reachable site. *)
Definition open_calls : list call := [CLaunch; CDeleteCookies; CGet link; CSleep 100].

Lemma skipn_nth_cons {A} (l : list A) i d :
  i < length l -> skipn i l = nth i l d :: skipn (S i) l.
Proof.
  revert i; induction l as [|x l IH]; intros i Hi; simpl in Hi; [lia|].
  destruct i as [|i]; [reflexivity|]. simpl. apply IH. lia.
Qed.

Section Site.
Variables (srcs : list string) (controls : list elem).
#[local] Instance site_driver : WebDriver nat := paged_site srcs controls.
Hypothesis controls_ne : controls <> [].

Lemma advance_site (h : handler nat) i :
  driver h = Some i ->
  advance (last controls 0) h =
  if Nat.ltb (S i) (length srcs)
  then (upd h (S i) [CScript JsScrollIntoView; CClick (last controls 0)], Ok false)
  else (upd h i [CScript JsScrollIntoView; CClick (last controls 0)], Ok true).
Proof.
  intros Hd. unfold advance, try_except, scroll_to_given_element, click, execute_script, drv.
  cbn [bind Monad_st]. unfold st_bind. rewrite Hd. cbn -[Nat.ltb].
  rewrite Nat.eqb_refl.
  destruct (Nat.ltb (S i) (length srcs)); unfold set_world; rewrite upd_upd; reflexivity.
Qed.

Lemma crawl_loop_site_step f pages (h : handler nat) i :
  driver h = Some i ->
  crawl_loop (S f) pages h =
  if Nat.ltb (S i) (length srcs)
  then crawl_loop f (pages ++ [nth i srcs ""%string])
                  (upd h (S i) (iter_calls (last controls 0)))
  else (upd h i (iter_calls (last controls 0)), Ok (Some (pages ++ [nth i srcs ""%string]))).
Proof.
  intros Hd. cbn [crawl_loop bind Monad_st]. unfold st_bind, sleep. rewrite Hd.
  cbn -[Nat.ltb nth advance]. rewrite (py_getitem_last controls 0).
  destruct controls as [|c cs] eqn:Ec; [congruence|]. rewrite <- Ec. cbn -[Nat.ltb nth advance].
  rewrite (advance_site _ i) by reflexivity. unfold set_world. rewrite !upd_upd.
  destruct (Nat.ltb (S i) (length srcs)); reflexivity.
Qed.

Lemma crawl_loop_site n : forall fuel pages (h : handler nat) i,
  driver h = Some i -> i + S n = length srcs -> n < fuel ->
  crawl_loop fuel pages h =
  (upd h (i + n) (concat (repeat (iter_calls (last controls 0)) (S n))),
   Ok (Some (pages ++ skipn i srcs))).
Proof.
  induction n as [|n IH]; intros fuel pages h i Hd Hk Hf;
    (destruct fuel as [|f]; [lia|]); rewrite crawl_loop_site_step with (i := i) by exact Hd.
  - replace (Nat.ltb (S i) (length srcs)) with false by (symmetry; apply Nat.ltb_ge; lia).
    rewrite (skipn_nth_cons srcs i ""%string) by lia.
    rewrite skipn_all2 by lia. rewrite Nat.add_0_r. reflexivity.
  - replace (Nat.ltb (S i) (length srcs)) with true by (symmetry; apply Nat.ltb_lt; lia).
    rewrite (IH f _ _ (S i)) by (reflexivity || lia).
    rewrite upd_upd, <- app_assoc.
    change ([nth i srcs ""%string] ++ skipn (S i) srcs)
      with (nth i srcs ""%string :: skipn (S i) srcs).
    rewrite <- (skipn_nth_cons srcs i ""%string) by lia.
    replace (S i + n) with (i + S n) by lia. reflexivity.
Qed.

Lemma crawl_site_run proxy fuel path :
  srcs <> [] -> length srcs <= fuel ->
  crawl proxy fuel (init true path) =
  (upd (init true path) (length srcs - 1)
     (open_calls ++ concat (repeat (iter_calls (last controls 0)) (length srcs)) ++ [CClose]),
   Ok (Some srcs)).
Proof.
  intros Hne Hf. assert (Hl : length srcs >= 1) by (destruct srcs; [congruence | simpl; lia]).
  unfold crawl. cbn [bind Monad_st]. unfold st_bind. cbn -[crawl_loop].
  rewrite crawl_loop_site with (n := length srcs - 1) (i := 0) by (reflexivity || lia).
  remember (length srcs - 1) as k eqn:Ek.
  replace (length srcs) with (S k) by lia. reflexivity.
Qed.

(** C1: On a site of [k >= 1] pages whose last pagination control is
    intercepted on page [k], the crawl captures exactly the [k] page
    sources in visiting order, makes exactly [k] loop iterations (the
    log below) and closes the browser once, at the end. *)
Theorem crawl_site proxy fuel path :
  srcs <> [] -> length srcs <= fuel ->
  crawl proxy fuel (init true path) =
  (upd (init true path) (length srcs - 1)
     (open_calls ++ concat (repeat (iter_calls (last controls 0)) (length srcs)) ++ [CClose]),
   Ok (Some srcs)).
Proof. apply crawl_site_run. Qed.

(** C19: A page without pagination controls raises [IndexError] in the
    first iteration, before any page source is captured, and the
    browser is never closed. *)
Theorem crawl_no_controls proxy fuel path :
  controls = [] -> 0 < fuel ->
  crawl proxy fuel (init true path) =
  (upd (init true path) 0
     (open_calls ++ [CSleep pause_ms; CFindElements pagination_locator]), Err IndexError).
Proof.
  intros Hc Hf. destruct fuel as [|f]; [lia|].
  unfold crawl. cbn [bind Monad_st crawl_loop]. unfold st_bind. cbn.
  rewrite Hc. reflexivity.
Qed.

End Site.

Example crawl_site_witness :
  @crawl nat (site_driver ["p1"; "p2"; "p3"]%string [7; 8; 9]) ""%string 5 (init true ""%string) =
  (upd (init true ""%string) 2
     (open_calls ++ concat (repeat (iter_calls 9) 3) ++ [CClose]),
   Ok (Some ["p1"; "p2"; "p3"]%string)).
Proof.
  refine (crawl_site ["p1"; "p2"; "p3"]%string [7; 8; 9] _ ""%string 5 ""%string _ _);
    [discriminate | discriminate | simpl; lia].
Defined.

Example crawl_no_controls_witness :
  @crawl nat (site_driver ["p1"]%string []) ""%string 3 (init true ""%string) =
  (upd (init true ""%string) 0
     (open_calls ++ [CSleep pause_ms; CFindElements pagination_locator]), Err IndexError).
Proof. refine (crawl_no_controls ["p1"]%string [] ""%string 3 ""%string _ _); [reflexivity | lia]. Defined.

#[export] Hint Resolve no_close_ret no_close_lift no_close_sleep no_close_advance
  no_close_get_url no_close_crawl_loop : crawl.

End Crawler.
