(* ===== verification/Pipeline.v ===== *)
(** * Pipeline: [get_synculario_offers] end to end

    [synculario.py] lines 11-47: crawl ([Crawler.crawl]), close the
    browser, parse every captured page with [BeautifulSoup] and extract
    its rows ([Extract.extract_data]), then build
    [pd.DataFrame(data, columns=[...])].  The HTML tokenizer is the
    section variable [parse]; the DataFrame is its column list and its
    rows, built as pandas builds a frame from a list of lists: the
    widest row must have as many cells as there are columns
    ([ValueError] otherwise) and shorter rows are padded with [NaN]
    ([None] here).  [pd.set_option] (line 45) only changes printing.
    [synculario_offers] is the whole function from the construction of
    the handler (line 16), whose driver install may raise. *)

From Stdlib Require Import String Ascii List Bool Arith ZArith Lia.
From S2P Require Import Prelude PyStr Soup Extract Browser Crawler.
Import ListNotations.

Module Pipeline.
Import Soup Extract Browser Crawler.

(** Line 46. *)
Definition columns : list string :=
  ["job_title"; "url"; "agency"; "location"; "job_type"; "emp_type"; "pay_interval";
   "pay_rate"; "start_length"]%string.

Record dataframe := { df_columns : list string; df_rows : list (list (option string)) }.

Definition width (data : list (list string)) : nat := list_max (map (@length string) data).

Definition pad (w : nat) (r : list string) : list (option string) :=
  map Some r ++ repeat None (w - length r).

(** [pd.DataFrame(data, columns=cols)] for a list of lists. *)
Definition mk_dataframe (data : list (list string)) (cols : list string) : result dataframe :=
  match data with
  | [] => Ok {| df_columns := cols; df_rows := [] |}
  | _ => if Nat.eqb (width data) (length cols)
         then Ok {| df_columns := cols; df_rows := map (pad (length cols)) data |}
         else Err (ValueError "columns passed, passed data had a different number of columns")
  end.

Fixpoint index_of (x : string) (l : list string) : option nat :=
  match l with
  | [] => None
  | y :: l' => if String.eqb x y then Some 0 else option_map S (index_of x l')
  end.

(** [df[name]] as a list of cells ([KeyError] for an unknown column). *)
Definition column (df : dataframe) (name : string) : result (list (option string)) :=
  match index_of name (df_columns df) with
  | Some i => Ok (map (fun r => nth i r None) (df_rows df))
  | None => Err (KeyError name)
  end.

(** What the program writes to standard output: a text line, an
    exception printed by [print(e)], or the frame printed by line 50. *)
Inductive line : Type :=
| LText (s : string)
| LExn (e : exn)
| LFrame (df : dataframe).

(** The exceptions printed along a log. *)
Definition printed (cs : list call) : list line :=
  flat_map (fun c => match c with CPrint e => [LExn e] | _ => [] end) cs.

Section Pipeline.
Context {W : Type} `{WebDriver W}.
Variable parse : string -> list node.

(** Lines 11-47, with [fuel] iterations of the pagination loop. *)
Definition get_synculario_offers (proxy : string) (fuel : nat)
  : st (handler W) (option dataframe) :=
  r <- crawl proxy fuel ;;
  match r with
  | None => ret None
  | Some pages =>
      data <- lift (extract_data base_url (map parse pages)) ;;
      df <- lift (mk_dataframe data columns) ;;
      ret (Some df)
  end.

(** The whole function, from [BrowserHandler(True)] (line 16) on:
    [install] is the outcome of [ChromeDriverManager().install()]. *)
Definition synculario_offers (install : result string) (proxy : string) (fuel : nat)
  : result (option dataframe) :=
  match snd (new_handler true install) with
  | Err e => Err e
  | Ok h => snd (get_synculario_offers proxy fuel h)
  end.

(** [if __name__ == '__main__': print(get_synculario_offers())]
    (lines 49-50): the lines written to standard output, in order, and
    the outcome of the program ([Ok (Some tt)] once the frame is printed,
    an exception that ends it, or [Ok None] while the crawl still runs). *)
Definition main (install : result string) (proxy : string) (fuel : nat)
  : list line * result (option unit) :=
  let (out, r) := new_handler true install in
  match r with
  | Err e => (map LText out, Err e)
  | Ok h =>
      let (h', r') := get_synculario_offers proxy fuel h in
      let out' := (map LText out ++ printed (calls h'))%list in
      match r' with
      | Ok (Some df) => ((out' ++ [LFrame df])%list, Ok (Some tt))
      | Ok None => (out', Ok None)
      | Err e => (out', Err e)
      end
  end.

End Pipeline.

(** ** Lemmas *)

Lemma width_uniform (data : list (list string)) n :
  data <> [] -> Forall (fun r => length r = n) data -> width data = n.
Proof.
  unfold width. intros Hne Hf. induction Hf as [|r data Hr Hf IH]; [congruence|].
  simpl. destruct data as [|r' data'].
  - simpl. rewrite Hr. lia.
  - rewrite IH by discriminate. rewrite Hr. lia.
Qed.

Lemma mk_dataframe_nine data :
  Forall (fun r => length r = 9) data ->
  mk_dataframe data columns = Ok {| df_columns := columns; df_rows := map (pad 9) data |}.
Proof.
  intros Hf. unfold mk_dataframe. destruct data as [|r data']; [reflexivity|].
  rewrite (width_uniform _ 9) by (discriminate || exact Hf). reflexivity.
Qed.

Lemma nth_pad i w r d : i < length r -> nth i (pad w r) None = Some (nth i r d).
Proof.
  intros Hi. unfold pad. rewrite app_nth1 by (rewrite length_map; exact Hi).
  rewrite nth_indep with (d' := Some d) by (rewrite length_map; exact Hi).
  apply map_nth.
Qed.

Lemma column_pad df_rows_data i name :
  index_of name columns = Some i -> i < 9 ->
  Forall (fun r => length r = 9) df_rows_data ->
  column {| df_columns := columns; df_rows := map (pad 9) df_rows_data |} name =
  Ok (map (fun r => Some (nth i r ""%string)) df_rows_data).
Proof.
  intros Hi Hlt Hf. unfold column. cbn [df_columns df_rows]. rewrite Hi. f_equal.
  rewrite map_map. apply map_ext_in. intros r Hr.
  rewrite Forall_forall in Hf. apply nth_pad. rewrite (Hf r Hr). exact Hlt.
Qed.

Lemma offers_site_run srcs controls jss (parse : string -> list node) proxy fuel path :
  controls <> [] -> srcs <> [] -> length srcs <= fuel ->
  map parse srcs = map page_doc jss -> forallb (forallb job_ok) jss = true ->
  @get_synculario_offers nat (site_driver srcs controls) parse proxy fuel (init true path) =
  (upd (init true path) (length srcs - 1)
     (open_calls ++ concat (repeat (iter_calls (last controls 0)) (length srcs)) ++ [CClose]),
   Ok (Some {| df_columns := columns;
               df_rows := map (pad 9) (concat (map (map (job_row base_url)) jss)) |})).
Proof.
  intros Hc Hne Hf Hp Hok. unfold get_synculario_offers. cbn [bind Monad_st]. unfold st_bind.
  rewrite crawl_site_run by assumption. unfold lift. rewrite Hp, extract_data_jobs by exact Hok.
  rewrite mk_dataframe_nine; [reflexivity|].
  apply Forall_concat, Forall_map, Forall_forall. intros js _.
  apply Forall_map, Forall_forall. intros j _. reflexivity.
Qed.

Lemma printed_app l1 l2 : printed (l1 ++ l2) = (printed l1 ++ printed l2)%list.
Proof. apply flat_map_app. Qed.

Lemma printed_concat_repeat l n : printed l = [] -> printed (concat (repeat l n)) = [].
Proof. intros Hl. induction n as [|n IH]; [reflexivity|]. simpl. rewrite printed_app, Hl, IH. reflexivity. Qed.

(** ** Theorems *)

(** C9: Whatever the pages, a successful extraction always yields a
    DataFrame (no [ValueError]) whose [job_type] column is empty in every
    row, while [emp_type] holds, block by block in page and document
    order, the stripped [li.company] text without ["Contract type:\n"]:
    the list literal of line 44 puts [""] in the fifth cell and the
    company text in the sixth. *)
Theorem offers_job_type_empty b docs data :
  extract_data b docs = Ok data ->
  exists df, mk_dataframe data columns = Ok df /\
    column df "job_type" = Ok (repeat (Some ""%string) (length data)) /\
    column df "emp_type" = Ok (map (fun blk => Some (company_text blk)) (job_blocks docs)).
Proof.
  intros Hd. pose proof (extract_data_rows _ _ _ Hd) as Hrows.
  assert (H9 : Forall (fun r => length r = 9) data)
    by (eapply Forall_impl; [|exact Hrows]; intros r Hr; apply Hr).
  eexists. split; [apply mk_dataframe_nine, H9|]. split.
  - rewrite (column_pad _ 4) by (reflexivity || lia || exact H9). f_equal.
    clear Hd H9. induction Hrows as [|r data' Hr _ IH]; [reflexivity|].
    simpl. destruct Hr as (_ & _ & H4 & _). rewrite H4, IH. reflexivity.
  - rewrite (column_pad _ 5) by (reflexivity || lia || exact H9). f_equal. symmetry.
    apply Forall2_map_eq. eapply Forall2_impl; [|exact (extract_data_blocks _ _ _ Hd)].
    intros blk r Hr. cbn beta. rewrite (extract_row_company _ _ _ Hr). reflexivity.
Qed.

Example offers_job_type_empty_witness :
  let docs := [page_doc [ {| j_title := "Tester"; j_href := "/jobs/43"; j_location := "Brno";
                             j_contract := "Part-time"; j_salary := "30 000 CZK" |} ]]%string in
  extract_data base_url docs =
    Ok [["Tester"; "https://synculario.odoo.com/jobs/43"; "synculario"; "Brno"; "";
         "Part-time"; ""; "30 000 CZK"; ""]]%string /\
  exists df,
    mk_dataframe [["Tester"; "https://synculario.odoo.com/jobs/43"; "synculario"; "Brno"; "";
                   "Part-time"; ""; "30 000 CZK"; ""]]%string columns = Ok df /\
    column df "job_type" = Ok (repeat (Some ""%string) 1) /\
    column df "emp_type" = Ok (map (fun blk => Some (company_text blk)) (job_blocks docs)).
Proof.
  intros docs. split; [reflexivity|].
  apply (offers_job_type_empty base_url docs). reflexivity.
Defined.

(** On that page the [emp_type] column is the contract type. *)
Example offers_emp_type_contract :
  map (fun blk => Some (company_text blk))
    (job_blocks [page_doc [ {| j_title := "Tester"; j_href := "/jobs/43"; j_location := "Brno";
                               j_contract := "Part-time"; j_salary := "30 000 CZK" |} ]]%string) =
  [Some "Part-time"%string].
Proof. reflexivity. Qed.

(** C5: On a site of [k >= 1] pages whose page [i] parses to the
    well-formed blocks [jss_i], [get_synculario_offers] visits the [k]
    pages, closes the browser once, and returns the frame with the fixed
    nine columns and one row per block, pages in visiting order and
    blocks in document order. *)
Theorem offers_site srcs controls jss (parse : string -> list node) proxy fuel path :
  controls <> [] -> srcs <> [] -> length srcs <= fuel ->
  map parse srcs = map page_doc jss -> forallb (forallb job_ok) jss = true ->
  @get_synculario_offers nat (site_driver srcs controls) parse proxy fuel (init true path) =
  (upd (init true path) (length srcs - 1)
     (open_calls ++ concat (repeat (iter_calls (last controls 0)) (length srcs)) ++ [CClose]),
   Ok (Some {| df_columns := columns;
               df_rows := map (pad 9) (concat (map (map (job_row base_url)) jss)) |})).
Proof. apply offers_site_run. Qed.

Definition two_jobs : list job :=
  [ {| j_title := "Data Analyst"; j_href := "/jobs/42"; j_location := "Prague";
       j_contract := "Full-time"; j_salary := "50 000 CZK" |};
    {| j_title := "Tester"; j_href := "/jobs/43"; j_location := "Brno";
       j_contract := "Part-time"; j_salary := "30 000 CZK" |} ]%string.

Definition parse_two (src : string) : list node :=
  if String.eqb src "p1" then page_doc two_jobs else page_doc [].

Example offers_site_witness :
  @get_synculario_offers nat (site_driver ["p1"; "p2"]%string [3; 4]) parse_two ""%string 4
    (init true ""%string) =
  (upd (init true ""%string) 1 (open_calls ++ concat (repeat (iter_calls 4) 2) ++ [CClose]),
   Ok (Some {| df_columns := columns;
               df_rows := map (pad 9) (concat (map (map (job_row base_url)) [two_jobs; []])) |})).
Proof.
  apply (offers_site ["p1"; "p2"]%string [3; 4] [two_jobs; []] parse_two);
    [discriminate | discriminate | simpl; lia | reflexivity | reflexivity].
Defined.

(** C6: The program run as a script ([__main__]) on a [k]-page site of
    well-formed blocks: when the driver install fails, it writes the
    START line and ends with the install's exception; otherwise it
    writes START, DONE and the frame of all blocks, and nothing else
    (no navigation error is printed). *)
Theorem main_site srcs controls jss (parse : string -> list node) install proxy fuel :
  controls <> [] -> srcs <> [] -> length srcs <= fuel ->
  map parse srcs = map page_doc jss -> forallb (forallb job_ok) jss = true ->
  @main nat (site_driver srcs controls) parse install proxy fuel =
  match install with
  | Err e => ([LText "START: Installing chrome web driver"], Err e)
  | Ok _ => ([LText "START: Installing chrome web driver"; LText "DONE: Installing chrome web driver";
              LFrame {| df_columns := columns;
                        df_rows := map (pad 9) (concat (map (map (job_row base_url)) jss)) |}],
             Ok (Some tt))
  end.
Proof.
  intros Hc Hne Hf Hp Hok. destruct install as [path|e]; [|reflexivity].
  unfold main. cbn [new_handler get_web_driver].
  rewrite (offers_site_run srcs controls jss) by assumption.
  rewrite calls_upd, !printed_app, printed_concat_repeat by reflexivity. reflexivity.
Qed.

Example main_site_witness :
  @main nat (site_driver ["p1"; "p2"]%string [3; 4]) parse_two (Ok "/opt/chromedriver"%string)
    ""%string 4 =
  ([LText "START: Installing chrome web driver"; LText "DONE: Installing chrome web driver";
    LFrame {| df_columns := columns;
              df_rows := map (pad 9) (concat (map (map (job_row base_url)) [two_jobs; []])) |}],
   Ok (Some tt)).
Proof.
  exact (main_site ["p1"; "p2"]%string [3; 4] [two_jobs; []] parse_two
           (Ok "/opt/chromedriver"%string) ""%string 4 ltac:(discriminate) ltac:(discriminate)
           ltac:(simpl; lia) eq_refl eq_refl).
Defined.

Section Unreachable.
Context {W : Type} `{WebDriver W}.

(** C26: When Chrome starts but the listing cannot be loaded
    ([driver.get] raises a selenium exception on every attempt) and the
    page the browser shows has no pagination controls, [main] prints the two install lines and
    the navigation error absorbed by [get_url], then ends with the
    [IndexError] of [pagination[len(pagination) - 1]]: the absorbed
    navigation failure becomes a fatal error of the crawl. *)
Theorem main_unreachable (parse : string -> list node) e path proxy fuel w0 w1 :
  wd_launch path (chrome_arguments proxy true) = Ok w0 ->
  wd_delete_all_cookies w0 = (w1, Ok tt) ->
  is_webdriver_exception e = true ->
  (forall w, wd_get link w = (w, Err e)) ->
  (forall w, wd_find_elements pagination_locator w = []) ->
  0 < fuel ->
  main parse (Ok path) proxy fuel =
  ([LText "START: Installing chrome web driver"; LText "DONE: Installing chrome web driver"; LExn e],
   Err IndexError).
Proof.
  intros Hl Hc He Hg Hf Hfuel. destruct fuel as [|f]; [lia|].
  unfold main, get_synculario_offers, crawl, get_url, set_driver, try_except, drv, sleep.
  cbn -[chrome_arguments]. unfold st_bind. cbn -[chrome_arguments]. rewrite Hl. cbn. rewrite Hc. cbn. rewrite Hg. cbn. rewrite He. cbn. unfold st_bind. cbn.
  rewrite Hf. reflexivity.
Qed.

End Unreachable.

Example main_unreachable_witness :
  @main nat offline_page parse_two (Ok "/opt/chromedriver"%string) ""%string 3 =
  ([LText "START: Installing chrome web driver"; LText "DONE: Installing chrome web driver";
    LExn (WebDriverException "net::ERR_NAME_NOT_RESOLVED")], Err IndexError).
Proof.
  exact (@main_unreachable nat offline_page parse_two (WebDriverException "net::ERR_NAME_NOT_RESOLVED") "/opt/chromedriver"%string ""%string 3
           0 0 eq_refl eq_refl eq_refl (fun _ => eq_refl) (fun _ => eq_refl) ltac:(lia)).
Defined.

End Pipeline.
