(* ===== verification/Ghost.v ===== *)
(** * The call log is ghost state

    The handler record of [Browser.v] carries a log [calls] of the
    driver calls made, which the Python object does not have.  This file
    shows that the log never influences the program: handlers equal up
    to their log ([same_state], an equivalence) are mapped by every
    operation of the crawl to handlers equal up to their log, with the
    same result.  [log_indep] is the compositional form of this (each
    operation appends calls that do not depend on the log it finds); its
    closure under the monad's combinators gives the [Proper] instances
    by which the pipeline is shown to respect [same_state]. *)

From Stdlib Require Import String List Bool Arith ZArith Lia Morphisms RelationClasses.
From S2P Require Import Prelude Soup Extract Browser Crawler Pipeline.
Import ListNotations.

Module Ghost.
Import Soup Extract Browser Crawler Pipeline.

Section Ghost.
Context {W : Type} `{WebDriver W}.

Abbreviation M := (st (handler W)).

(** Equal up to the call log. *)
Definition same_state (h1 h2 : handler W) : Prop := set_calls h1 [] = set_calls h2 [].

#[export] Instance same_state_equiv : Equivalence same_state.
Proof. unfold same_state. split; [intros ?; reflexivity | intros ?? ->; reflexivity | intros ??? -> ->; reflexivity]. Qed.

(** Outcomes of a computation equal up to the log of the final handler. *)
Definition outcome_eq {A} (p1 p2 : handler W * result A) : Prop :=
  same_state (fst p1) (fst p2) /\ snd p1 = snd p2.

(** [c] appends calls that depend on the handler up to its log only. *)
Definition log_indep {A} (c : M A) : Prop :=
  forall h, exists cs, calls (fst (c h)) = calls h ++ cs /\
    forall l, c (set_calls h l) = (set_calls (fst (c h)) (l ++ cs), snd (c h)).

Lemma set_calls_set_calls (h : handler W) a b : set_calls (set_calls h a) b = set_calls h b.
Proof. reflexivity. Qed.

Lemma set_calls_calls (h : handler W) : set_calls h (calls h) = h.
Proof. destruct h; reflexivity. Qed.

Lemma same_state_set_calls (h1 h2 : handler W) : same_state h1 h2 -> h2 = set_calls h1 (calls h2).
Proof.
  unfold same_state. intros E. rewrite <- (set_calls_calls h2) at 1.
  rewrite <- (set_calls_set_calls h2 [] (calls h2)), <- E. reflexivity.
Qed.

Lemma same_state_set_calls_r (h : handler W) l : same_state h (set_calls h l).
Proof. reflexivity. Qed.

#[export] Instance log_indep_proper {A} (c : M A) :
  log_indep c -> Proper (same_state ==> outcome_eq) c.
Proof.
  intros Hc h1 h2 E. rewrite (same_state_set_calls h1 h2 E).
  destruct (Hc h1) as (cs & _ & Hl). rewrite Hl. split; [apply same_state_set_calls_r | reflexivity].
Qed.

Lemma log_indep_ret {A} (a : A) : log_indep (ret a).
Proof. intros h. exists []. rewrite app_nil_r. split; [reflexivity|]. intros l. rewrite app_nil_r. reflexivity. Qed.

Lemma log_indep_lift {A} (r : result A) : log_indep (lift r).
Proof. intros h. exists []. rewrite app_nil_r. split; [reflexivity|]. intros l. rewrite app_nil_r. reflexivity. Qed.

Lemma log_indep_bind {A B} (c : M A) (k : A -> M B) :
  log_indep c -> (forall a, log_indep (k a)) -> log_indep (bind c k).
Proof.
  intros Hc Hk h. cbn [bind Monad_st]. unfold st_bind.
  destruct (Hc h) as (cs1 & E1 & L1). destruct (c h) as [h1 [a|e]]; simpl in *.
  - destruct (Hk a h1) as (cs2 & E2 & L2). exists (cs1 ++ cs2).
    split; [rewrite E2, E1, app_assoc; reflexivity|].
    intros l. rewrite L1. cbn. rewrite L2, app_assoc. reflexivity.
  - exists cs1. split; [exact E1|]. intros l. rewrite L1. reflexivity.
Qed.

Lemma log_indep_try {A} (c : M A) hd :
  log_indep c -> (forall e k, hd e = Some k -> log_indep k) -> log_indep (try_except c hd).
Proof.
  intros Hc Hk h. unfold try_except.
  destruct (Hc h) as (cs1 & E1 & L1). destruct (c h) as [h1 [a|e]] eqn:Ec; simpl in *.
  - exists cs1. split; [exact E1|]. intros l. rewrite L1. reflexivity.
  - destruct (hd e) as [k|] eqn:Ee.
    + destruct (Hk e k Ee h1) as (cs2 & E2 & L2). exists (cs1 ++ cs2).
      split; [rewrite E2, E1, app_assoc; reflexivity|].
      intros l. rewrite L1. cbn. rewrite Ee, L2, app_assoc. reflexivity.
    + exists cs1. split; [exact E1|]. intros l. rewrite L1. cbn. rewrite Ee. reflexivity.
Qed.

Lemma log_indep_drv {A} name c (f : W -> W * result A) : log_indep (drv name c f).
Proof.
  intros h. unfold drv. destruct (driver h) as [w|] eqn:Hd.
  - destruct (f w) as [w' r] eqn:Ef. exists [c]. split; [reflexivity|].
    intros l. cbn. rewrite Hd, Ef. reflexivity.
  - exists []. rewrite app_nil_r. split; [reflexivity|]. intros l. cbn. rewrite Hd, app_nil_r. reflexivity.
Qed.

Lemma log_indep_sleep ms : log_indep (sleep ms).
Proof.
  intros h. unfold sleep. destruct (driver h) as [w|] eqn:Hd.
  - exists [CSleep ms]. split; [reflexivity|]. intros l. cbn. rewrite Hd. reflexivity.
  - exists [CSleep ms]. split; [reflexivity|]. intros l. cbn. rewrite Hd. reflexivity.
Qed.

Lemma log_indep_set_driver proxy : log_indep (set_driver proxy).
Proof.
  intros h. unfold set_driver, drv, set_world, upd, set_calls. cbn.
  destruct (wd_launch _ _) as [w|e].
  - destruct (wd_delete_all_cookies w) as [w' r]. exists [CLaunch; CDeleteCookies].
    cbn. split; [|intros l]; rewrite <- app_assoc; reflexivity.
  - exists [CLaunch]. split; reflexivity.
Qed.

Lemma log_indep_print e : log_indep (print_exn e).
Proof. intros h. exists [CPrint e]. split; reflexivity. Qed.

End Ghost.

(** Prove [log_indep] of a computation built from the handler methods. *)
Ltac log_indep_t :=
  repeat first
    [ apply log_indep_bind; [|intros ?]
    | apply log_indep_try; [|intros ?e ?k ?Hk]
    | apply log_indep_drv | apply log_indep_sleep | apply log_indep_ret | apply log_indep_lift
    | apply log_indep_set_driver | apply log_indep_print
    | progress unfold advance, scroll_to_given_element, click, execute_script, find_elements,
                 page_source, drv_pure, get_url, quit_driver in *
    | match goal with
      | Hk : (if ?b then _ else _) = Some _ |- _ =>
          destruct b; [injection Hk as <- | discriminate Hk]
      | Hk : match ?e with _ => _ end = Some _ |- _ =>
          destruct e; try discriminate Hk; injection Hk as <-
      | |- log_indep (if ?b then _ else _) => destruct b
      | |- log_indep (match ?o with _ => _ end) => destruct o
      end ].

Section Pipeline.
Context {W : Type} `{WebDriver W}.

Lemma log_indep_crawl_loop fuel pages : log_indep (W := W) (crawl_loop fuel pages).
Proof.
  revert pages. induction fuel as [|f IH]; intros pages; cbn [crawl_loop]; log_indep_t; apply IH.
Qed.

Lemma log_indep_offers (parse : string -> list node) proxy fuel :
  log_indep (W := W) (get_synculario_offers parse proxy fuel).
Proof. unfold get_synculario_offers, crawl. log_indep_t; apply log_indep_crawl_loop. Qed.

(** The call log of the model is ghost state: run from two handlers
    that differ only in their logs, [get_synculario_offers] (crawl,
    close, parse and frame) gives the same result and handlers that
    again differ only in their logs. *)
Lemma get_synculario_offers_log_blind (parse : string -> list node) proxy fuel :
  Proper (same_state ==> outcome_eq) (get_synculario_offers (W := W) parse proxy fuel).
Proof. apply log_indep_proper, log_indep_offers. Qed.

End Pipeline.

End Ghost.
