(* ===== verification/CrawlMachine.v ===== *)
(** * The pagination loop as a state machine

    The loop of [synculario.py] lines 22-31 as the step relation the
    design describes: Loading -> Capturing -> Advancing -> Loading, until
    the click is intercepted (Done).  The code locates the pagination
    controls before it captures the page source, so the machine has a
    [Locating] phase between Loading and Capturing; an exception that
    escapes a phase ends in [Failed].  Each phase runs exactly the
    operations of the code ([act]); the machine is the instance of
    [Machine.v] on these phases, executable ([step_fn]), and
    [crawl_laws] discharges its laws.  [resume] is the code that is left to run from each
    phase; the refinement theorems relate [Crawler.crawl_loop] to runs of
    the machine in both directions, and the divergence theorems show that
    a site that never intercepts the click keeps the machine (and the
    code) running forever, capturing the same pages again. *)

From Stdlib Require Import String Ascii List Bool Arith ZArith Lia.
From S2P Require Import Prelude Machine Browser Crawler.
Import ListNotations.

Module CrawlMachine.
Import Browser Crawler.

(** The phases; [pages] is the snapshot list captured so far. *)
Inductive phase : Type :=
| Loading (pages : list string)
| Locating (pages : list string)
| Capturing (pages : list string) (element : elem)
| Advancing (pages : list string) (element : elem)
| Done (pages : list string)
| Failed (e : exn).

Definition terminal (p : phase) : bool :=
  match p with Done _ | Failed _ => true | _ => false end.

Section Machine.
Context {W : Type} `{WebDriver W}.

Abbreviation M := (st (handler W)).
Definition config : Type := (phase * handler W)%type.

(** The operations of each phase, in the order of lines 23-31. *)
Definition act (p : phase) : option (M phase) :=
  match p with
  | Loading ps => Some (sleep pause_ms ;;; ret (Locating ps))
  | Locating ps =>
      Some (pagination <- find_elements pagination_locator ;;
            element <- lift (py_getitem pagination (Z.of_nat (length pagination) - 1)) ;;
            ret (Capturing ps element))
  | Capturing ps element => Some (src <- page_source ;; ret (Advancing (ps ++ [src]) element))
  | Advancing ps element =>
      Some (stop <- advance element ;; ret (if stop then Done ps else Loading ps))
  | Done _ | Failed _ => None
  end.

(** The machine of [Machine.v] on these phases. *)
Definition step : config -> config -> Prop := Machine.mstep act Failed.
Definition step_fn : config -> option config := Machine.mstep_fn act Failed.
Definition run_fn : nat -> config -> config := Machine.mrun_fn act Failed.

(** The code that is left to run from each phase, [f] being the fuel of
    the loop: lines 24-31 continued by the loop. *)
Definition resume (f : nat) (p : phase) : M (option (list string)) :=
  match p with
  | Loading ps => crawl_loop f ps
  | Locating ps =>
      pagination <- find_elements pagination_locator ;;
      element <- lift (py_getitem pagination (Z.of_nat (length pagination) - 1)) ;;
      src <- page_source ;;
      stop <- advance element ;;
      if stop then ret (Some (ps ++ [src])) else crawl_loop f (ps ++ [src])
  | Capturing ps element =>
      src <- page_source ;;
      stop <- advance element ;;
      if stop then ret (Some (ps ++ [src])) else crawl_loop f (ps ++ [src])
  | Advancing ps element =>
      stop <- advance element ;;
      if stop then ret (Some ps) else crawl_loop f ps
  | Done ps => ret (Some ps)
  | Failed e => raise e
  end.

(** Fuel a step consumes, and the measure of the soundness induction. *)
Definition cost (p : phase) : nat := match p with Loading _ => 1 | _ => 0 end.
Definition rank (p : phase) : nat :=
  match p with Locating _ => 3 | Capturing _ _ => 2 | Advancing _ _ => 1 | _ => 0 end.

End Machine.

(** The result the code returns when the machine stops in [p]. *)
Definition outcome (p : phase) : result (option (list string)) :=
  match p with Done ps => Ok (Some ps) | Failed e => Err e | _ => Ok None end.

Definition pages_of (p : phase) : list string :=
  match p with
  | Loading ps | Locating ps | Capturing ps _ | Advancing ps _ | Done ps => ps
  | Failed _ => []
  end.

(** ** Lemmas *)

Section MachineFacts.
Context {W : Type} `{WebDriver W}.

Ltac unfold_st := cbn [bind ret Monad_st resume crawl_loop act] in *; unfold st_bind, lift, raise in *.

(** The phases a step can lead to. *)
Lemma step_shape (p p' : phase) (h h' : handler W) :
  step (p, h) (p', h') ->
  (exists e, p' = Failed e) \/
  match p with
  | Loading ps => p' = Locating ps
  | Locating ps => exists el, p' = Capturing ps el
  | Capturing ps el => exists src, p' = Advancing (ps ++ [src]) el
  | Advancing ps el => p' = Done ps \/ p' = Loading ps
  | Done _ | Failed _ => False
  end.
Proof.
  intros Hs. unfold step in Hs.
  inversion Hs as [p0 h0 m p1 h1 Ha Hm | p0 h0 m e h1 Ha Hm]; subst; [|eauto].
  right. destruct p; cbn [act] in Ha; try discriminate Ha; injection Ha as <-;
    unfold_st; st_case; eauto.
Qed.

(** The pagination loop satisfies the laws of [Machine.loop_laws]: a
    step of the machine is a step of the code with the fuel the step
    uses, only Loading uses fuel, and the phases of one iteration come
    in the order Locating, Capturing, Advancing. *)
Lemma crawl_laws : Machine.loop_laws act Failed (resume (W := W)) cost rank 4.
Proof.
  split.
  1-2: intros p m h h' ? f Ha Hm; destruct p; cbn [act] in Ha; try discriminate Ha;
    injection Ha as <-; unfold cost; cbn [Nat.add]; Machine.resume_by unfold_st.
  - reflexivity.
  - reflexivity.
  - intros p f h Ha. destruct p; try discriminate Ha; reflexivity.
  - intros q h [Ha|Hc]; destruct q; try discriminate; reflexivity.
  - intros p. destruct p; simpl; lia.
  - intros p. destruct p; simpl; lia.
  - intros p m h h' p' Ha Hm Hc. destruct p; cbn [act] in Ha; try discriminate; injection Ha as <-;
      unfold_st; st_case_hyps; simpl; lia.
Qed.

Lemma crawl_run_fn_star n (c : config (W := W)) : star step c (run_fn n c).
Proof. apply Machine.mrun_fn_star. Qed.

(** What a run of the code from a phase says about the machine. *)
Definition reaches (c : config (W := W)) (h' : handler W) (r : result (option (list string))) : Prop :=
  match r with
  | Ok (Some ps) => star step c (Done ps, h')
  | Ok None => exists ps, star step c (Loading ps, h')
  | Err e => star step c (Failed e, h')
  end.

(** The snapshot list of [q] starts with [ps0]. *)
Definition extends (ps0 : list string) (q : phase) : Prop :=
  match q with Failed _ => True | _ => exists sfx, pages_of q = ps0 ++ sfx end.

Lemma no_close_act p m : act p = Some m -> no_close (W := W) m.
Proof.
  destruct p; simpl; intros Ha; try discriminate Ha; injection Ha as <-;
    repeat first [ apply no_close_bind; [|intros ?]
                 | apply no_close_sleep | apply no_close_ret | apply no_close_lift
                 | apply no_close_advance
                 | unfold find_elements, page_source, drv_pure; apply no_close_drv; reflexivity ].
Qed.

Lemma step_no_close p p' (h h' : handler W) :
  step (p, h) (p', h') ->
  exists cs, calls h' = calls h ++ cs /\ closes cs = 0 /\ (driver h <> None -> driver h' <> None).
Proof.
  intros Hs. unfold step in Hs. inversion Hs as [p0 h0 m p1 h1 Ha Hm | p0 h0 m e h1 Ha Hm]; subst;
    destruct (no_close_act _ _ Ha h) as (cs & E & Z & D); rewrite Hm in E, D; eauto.
Qed.

Lemma step_extends ps0 p p' (h h' : handler W) :
  step (p, h) (p', h') -> extends ps0 p -> extends ps0 p'.
Proof.
  intros Hs Hx. destruct (step_shape _ _ _ _ Hs) as [[e ->]|Hp]; [exact I|].
  destruct p; simpl in Hp; try contradiction; destruct Hx as [sfx Hx]; simpl in Hx;
    repeat match goal with
           | H : exists _, _ |- _ => destruct H
           | H : _ \/ _ |- _ => destruct H
           end; subst; simpl; eexists; try rewrite <- app_assoc; reflexivity.
Qed.

(** The invariant of every configuration reachable from [Loading ps0]
    in [h0]: the log only grew, by calls that do not close the browser,
    the driver is live, and the snapshots begin with [ps0]. *)
Definition machine_inv (ps0 : list string) (h0 : handler W) (c : config (W := W)) : Prop :=
  exists cs, calls (snd c) = calls h0 ++ cs /\ closes cs = 0 /\ driver (snd c) <> None /\
             extends ps0 (fst c).

Lemma star_machine_inv ps0 h0 c c' :
  star step c c' -> machine_inv ps0 h0 c -> machine_inv ps0 h0 c'.
Proof.
  induction 1 as [c|[p h] [p1 h1] c' Hs _ IH]; [tauto|]. intros (cs & E & Z & D & X). apply IH.
  destruct (step_no_close _ _ _ _ Hs) as (cs' & E' & Z' & D'). exists (cs ++ cs').
  simpl in *. rewrite E', E, app_assoc, closes_app.
  split; [reflexivity | split; [lia | split; [auto | eapply step_extends; eassumption]]].
Qed.

(** Completeness of the code with respect to the machine. *)
Lemma star_terminal_run ps (h : handler W) q h' :
  star step (Loading ps, h) (q, h') -> terminal q = true ->
  exists n, forall fuel, n <= fuel -> crawl_loop fuel ps h = (h', outcome q).
Proof.
  intros Hs Ht. assert (Ha : act q = None) by (destruct q; try discriminate Ht; reflexivity).
  destruct (Machine.stop_run _ _ _ _ _ _ crawl_laws _ _ _ _ Hs Ha) as [n Hn].
  exists n. intros fuel Hf. change (crawl_loop fuel ps h) with (resume fuel (Loading ps) h).
  rewrite (Hn fuel Hf). destruct q; try discriminate Ht; reflexivity.
Qed.

(** A loop that is still running for every fuel never stops the machine. *)
Lemma running_infseq ps (h : handler W) :
  (forall fuel, snd (crawl_loop fuel ps h) = Ok None) -> infseq step (Loading ps, h).
Proof.
  intros Hrun. apply (Machine.infseq_of_running _ _ _ _ _ _ crawl_laws (fun r => r = Ok None));
    [intros q h' Ha; destruct q; try discriminate Ha; discriminate | exact Hrun].
Qed.

(** ** Theorems *)

(** C3: Soundness of the loop with respect to the state machine: every
    outcome of [crawl_loop], whatever the browser and the fuel, is a run
    of the machine from Loading: a returned snapshot list is a run to
    Done with that list, an escaped exception a run to Failed with it,
    and an exhausted fuel a run to Loading with some snapshot list. *)
Theorem crawl_loop_sound fuel ps (h : handler W) :
  reaches (Loading ps, h) (fst (crawl_loop fuel ps h)) (snd (crawl_loop fuel ps h)).
Proof.
  destruct (Machine.resume_sound _ _ _ _ _ _ crawl_laws fuel (Loading ps) h) as (q & Hs & Hq & Hst).
  change (resume fuel (Loading ps) h) with (crawl_loop fuel ps h) in Hs, Hq.
  destruct (crawl_loop fuel ps h) as [h' r]. cbn [fst snd] in *.
  destruct Hst as [Ha|Hc]; destruct q; try discriminate; injection Hq as <-; simpl; eauto.
Qed.

(** C4: Completeness: a run of the machine from Loading that stops in
    Done or Failed is what [crawl_loop] computes for every fuel from some
    bound on (the number of Loading steps of the run). *)
Theorem crawl_loop_complete ps (h : handler W) q h' :
  star step (Loading ps, h) (q, h') -> terminal q = true ->
  exists n, forall fuel, n <= fuel -> crawl_loop fuel ps h = (h', outcome q).
Proof. apply star_terminal_run. Qed.

(** C8: Invariant of the machine, by rule induction: from Loading with a
    live driver, every reachable configuration keeps the driver live,
    has only appended calls to the log, none of which closes the
    browser, and (unless failed) holds a snapshot list that extends the
    initial one: snapshots are only appended, never dropped or reordered. *)
Theorem machine_invariant ps0 (h0 : handler W) q h' :
  driver h0 <> None -> star step (Loading ps0, h0) (q, h') ->
  exists cs, calls h' = calls h0 ++ cs /\ closes cs = 0 /\ driver h' <> None /\ extends ps0 q.
Proof.
  intros Hd Hs. apply (star_machine_inv ps0 h0 _ _ Hs).
  exists []. rewrite app_nil_r. split; [reflexivity | split; [reflexivity | split; [exact Hd|]]].
  exists []. rewrite app_nil_r. reflexivity.
Qed.

End MachineFacts.

(** ** A site that never intercepts the click

    Like [Crawler.paged_site], but the last control leads from page [i]
    to page [i + 1 mod k]: the listing cycles back to its first page. *)
Definition cycle_site (srcs : list string) (controls : list elem) : WebDriver nat := {|
  wd_launch := fun _ _ => Ok 0;
  wd_get := fun _ _ => (0, Ok tt);
  wd_current_url := fun _ => link;
  wd_page_source := fun w => nth w srcs ""%string;
  wd_find_element := fun _ _ => Err (NoSuchElementException "");
  wd_find_elements := fun l _ => if String.eqb (value l) ".page-item" then controls else [];
  wd_click := fun e w =>
    if Nat.eqb e (last controls 0)
    then (if Nat.ltb (S w) (length srcs) then (S w, Ok tt) else (0, Ok tt))
    else (w, Ok tt);
  wd_execute_script := fun _ _ w => (w, Ok PyNone);
  wd_delete_all_cookies := fun w => (w, Ok tt);
  wd_close := fun w => w;
  wd_text := fun _ _ => ""%string;
  wd_tag_name := fun _ _ => ""%string;
  wd_is_enabled := fun _ _ => true;
  wd_is_displayed := fun _ _ => true;
  wd_select_by_value := fun _ _ w => (w, Ok tt);
  wd_sleep := fun _ w => w |}.

Definition cycle_next (k i : nat) : nat := if Nat.ltb (S i) k then S i else 0.

Section Cycle.
Variables (srcs : list string) (controls : list elem).
#[local] Instance cycle_driver : WebDriver nat := cycle_site srcs controls.
Hypothesis controls_ne : controls <> [].

Lemma advance_cycle (h : handler nat) i :
  driver h = Some i ->
  advance (last controls 0) h =
  (upd h (cycle_next (length srcs) i) [CScript JsScrollIntoView; CClick (last controls 0)], Ok false).
Proof.
  intros Hd. unfold advance, try_except, scroll_to_given_element, click, execute_script, drv.
  cbn [bind Monad_st]. unfold st_bind. rewrite Hd. cbn -[Nat.ltb].
  rewrite Nat.eqb_refl. unfold cycle_next.
  destruct (Nat.ltb (S i) (length srcs)); unfold set_world; rewrite upd_upd; reflexivity.
Qed.

Lemma crawl_loop_cycle_step f ps (h : handler nat) i :
  driver h = Some i ->
  crawl_loop (S f) ps h =
  crawl_loop f (ps ++ [nth i srcs ""%string])
             (upd h (cycle_next (length srcs) i) (iter_calls (last controls 0))).
Proof.
  intros Hd. cbn [crawl_loop bind Monad_st]. unfold st_bind, sleep. rewrite Hd.
  cbn -[Nat.ltb nth advance]. rewrite (py_getitem_last controls 0).
  destruct controls as [|c cs] eqn:Ec; [congruence|]. rewrite <- Ec. cbn -[Nat.ltb nth advance].
  rewrite (advance_cycle _ i) by reflexivity. unfold set_world. rewrite !upd_upd. reflexivity.
Qed.

Lemma cycle_running fuel : forall ps (h : handler nat) i,
  driver h = Some i -> snd (crawl_loop fuel ps h) = Ok None.
Proof.
  induction fuel as [|f IH]; intros ps h i Hd; [reflexivity|].
  rewrite (crawl_loop_cycle_step f ps h i Hd). eapply IH. reflexivity.
Qed.

(** One loop iteration of the machine on the cycling site. *)
Lemma cycle_iter ps (h : handler nat) i :
  driver h = Some i ->
  star step (Loading ps, h)
    (Loading (ps ++ [nth i srcs ""%string]),
     upd h (cycle_next (length srcs) i) (iter_calls (last controls 0))).
Proof.
  intros Hd. pose proof (crawl_run_fn_star 4 (Loading ps, h)) as Hr.
  replace (run_fn 4 (Loading ps, h)) with
    (Loading (ps ++ [nth i srcs ""%string]),
     upd h (cycle_next (length srcs) i) (iter_calls (last controls 0))) in Hr; [exact Hr|].
  unfold run_fn, Machine.mrun_fn, Machine.mstep_fn, act. cbn [bind ret Monad_st].
  unfold st_bind, sleep, lift. rewrite Hd.
  cbn -[Nat.ltb nth advance]. rewrite (py_getitem_last controls 0).
  destruct controls as [|c cs] eqn:Ec; [congruence|]. rewrite <- Ec. cbn -[Nat.ltb nth advance].
  rewrite (advance_cycle _ i) by reflexivity. unfold set_world. rewrite !upd_upd. reflexivity.
Qed.

Lemma cycle_round j : forall i ps (h : handler nat),
  driver h = Some i -> i + S j = length srcs ->
  exists h', driver h' = Some 0 /\ star step (Loading ps, h) (Loading (ps ++ skipn i srcs), h').
Proof.
  induction j as [|j IH]; intros i ps h Hd Hk; pose proof (cycle_iter ps h i Hd) as Hs.
  - unfold cycle_next in Hs. replace (Nat.ltb (S i) (length srcs)) with false in Hs
      by (symmetry; apply Nat.ltb_ge; lia).
    rewrite (skipn_nth_cons srcs i ""%string), skipn_all2 by lia.
    exists (upd h 0 (iter_calls (last controls 0))); split; [reflexivity | exact Hs].
  - unfold cycle_next in Hs. replace (Nat.ltb (S i) (length srcs)) with true in Hs
      by (symmetry; apply Nat.ltb_lt; lia).
    destruct (IH (S i) (ps ++ [nth i srcs ""%string]) (upd h (S i) (iter_calls (last controls 0)))
                 eq_refl ltac:(lia)) as (h' & Hd' & Hs').
    exists h'. split; [exact Hd'|]. eapply star_trans; [exact Hs|].
    rewrite (skipn_nth_cons srcs i ""%string) by lia. rewrite <- app_assoc in Hs'. exact Hs'.
Qed.

(** C10: On a site that never intercepts the click (its last control
    cycles back to the first page), the pagination loop never ends: it
    is still running for every fuel, and the machine has an infinite
    run from Loading.  The code has no other exit. *)
Theorem cycle_site_diverges ps (h : handler nat) i :
  driver h = Some i ->
  (forall fuel, snd (crawl_loop fuel ps h) = Ok None) /\ infseq step (Loading ps, h).
Proof.
  intros Hd. assert (Hrun : forall fuel, snd (crawl_loop fuel ps h) = Ok None)
    by (intros fuel; exact (cycle_running fuel ps h i Hd)).
  split; [exact Hrun | apply running_infseq, Hrun].
Qed.

(** C20: The snapshot list is not free of repeats: on a cycling site of
    [k >= 1] pages the machine, started on the first page, reaches
    Loading with every page captured twice ([srcs ++ srcs]). *)
Theorem cycle_site_captures_twice (h : handler nat) :
  srcs <> [] -> driver h = Some 0 ->
  exists h', star step (Loading [], h) (Loading (srcs ++ srcs), h').
Proof.
  intros Hne Hd. destruct srcs as [|s0 rest] eqn:Es; [congruence|]. rewrite <- Es.
  assert (Hk : 0 + S (length rest) = length srcs) by (rewrite Es; reflexivity).
  destruct (cycle_round _ 0 [] h Hd Hk) as (h1 & Hd1 & Hs1).
  destruct (cycle_round _ 0 srcs h1 Hd1 Hk) as (h2 & _ & Hs2).
  exists h2. eapply star_trans; [exact Hs1 | exact Hs2].
Qed.

End Cycle.

(** ** Concrete runs *)

(** A live session on the first page of a listing. *)
Definition live_start : handler nat := upd (init true ""%string) 0 [].

Lemma two_page_run :
  star (@step nat (site_driver ["p1"; "p2"]%string [3; 4])) (Loading [], live_start)
    (Done ["p1"; "p2"]%string, upd live_start 1 (iter_calls 4 ++ iter_calls 4)).
Proof.
  replace (Done ["p1"; "p2"]%string, upd live_start 1 (iter_calls 4 ++ iter_calls 4))
    with (run_fn 8 (W := nat) (H := site_driver ["p1"; "p2"]%string [3; 4]) (Loading [], live_start))
    by reflexivity.
  apply crawl_run_fn_star.
Qed.

Example crawl_loop_complete_witness :
  star (@step nat (site_driver ["p1"; "p2"]%string [3; 4])) (Loading [], live_start)
    (Done ["p1"; "p2"]%string, upd live_start 1 (iter_calls 4 ++ iter_calls 4)) /\
  terminal (Done ["p1"; "p2"]%string) = true /\
  exists n, forall fuel, n <= fuel ->
    @crawl_loop nat (site_driver ["p1"; "p2"]%string [3; 4]) fuel [] live_start =
    (upd live_start 1 (iter_calls 4 ++ iter_calls 4), Ok (Some ["p1"; "p2"]%string)).
Proof.
  split; [exact two_page_run | split; [reflexivity|]].
  exact (crawl_loop_complete [] live_start _ _ two_page_run eq_refl).
Defined.

Example machine_invariant_witness :
  driver live_start <> None /\
  exists cs, calls (upd live_start 1 (iter_calls 4 ++ iter_calls 4)) = calls live_start ++ cs /\
    closes cs = 0 /\ driver (upd live_start 1 (iter_calls 4 ++ iter_calls 4)) <> None /\
    extends [] (Done ["p1"; "p2"]%string).
Proof.
  split; [discriminate|].
  exact (machine_invariant (H := site_driver ["p1"; "p2"]%string [3; 4]) [] live_start _ _
           ltac:(discriminate) two_page_run).
Defined.

Example cycle_site_diverges_witness :
  (forall fuel,
     snd (@crawl_loop nat (cycle_driver ["p1"; "p2"]%string [3; 4]) fuel [] live_start) = Ok None) /\
  infseq (@step nat (cycle_driver ["p1"; "p2"]%string [3; 4])) (Loading [], live_start).
Proof.
  exact (cycle_site_diverges ["p1"; "p2"]%string [3; 4] ltac:(discriminate) [] live_start 0 eq_refl).
Defined.

Example cycle_site_captures_twice_witness :
  exists h', star (@step nat (cycle_driver ["p1"; "p2"]%string [3; 4]))
               (Loading [], live_start) (Loading ["p1"; "p2"; "p1"; "p2"]%string, h').
Proof.
  exact (cycle_site_captures_twice ["p1"; "p2"]%string [3; 4] ltac:(discriminate) live_start
           ltac:(discriminate) eq_refl).
Defined.

End CrawlMachine.
